(** * Joystick / RGB LED / OLED controller for the Raspberry Pi Pico

    A shallow embedding of [AtividadeADC.c] and of its sibling file (the same
    program with narrower motion limits for the marker), followed by the
    properties of the interrupt handler and of the sensor-to-actuator
    mappings of the main loop.

    Conventions.  C integers are mathematical integers ([Z]) and every
    conversion to a narrower unsigned type is written out with [u8], [u16]
    or [u32].  The globals of the program form the record [globals]; calls
    into the Pico SDK and into the display driver are recorded, in program
    order, in a trace of [io_event]s.  Code that reads or writes globals or
    performs I/O lives in the monad [M].

    Granularity.  The handler runs to completion, and a loop iteration is
    taken as one step: the handler is not interleaved inside an iteration.
    The loop reads [pwm_enabled] once per [set_pwm_duty] call and
    [border_style] once, and never writes what the handler writes. *)

From Stdlib Require Import ZArith List Bool Lia.
Import ListNotations.
Open Scope Z_scope.

(** ** Fixed-width unsigned integers *)

Definition wrap (bits z : Z) : Z := z mod 2 ^ bits.
Definition u8 : Z -> Z := wrap 8.
Definition u16 : Z -> Z := wrap 16.
Definition u32 : Z -> Z := wrap 32.

(** Values representable in the 32-bit [int] of the target. *)
Definition int_range (z : Z) : Prop := - 2 ^ 31 <= z < 2 ^ 31.

(** ** Pins and constants ([#define]s of the source) *)

Definition VRX_PIN : Z := 26.
Definition VRY_PIN : Z := 27.
Definition SW_PIN : Z := 22.
Definition BUTTON_A_PIN : Z := 5.
Definition LED_R_PIN : Z := 13.
Definition LED_G_PIN : Z := 11.
Definition LED_B_PIN : Z := 12.

Definition JOYSTICK_CENTER : Z := 2048.
Definition ADC_MAX : Z := 4095.
Definition PWM_MAX : Z := 65535.

(** Modelled from the spec: [WIDTH] and [HEIGHT] are declared in
    [inc/ssd1306.h], which is not among the sources; the display is the
    128x64 monochrome panel. *)
Definition WIDTH : Z := 128.
Definition HEIGHT : Z := 64.

(** ** Globals and observable effects *)

Record globals : Type := mkGlobals {
  square_x : Z;               (* int square_x = 60 *)
  square_y : Z;               (* int square_y = 28 *)
  led_green_state : bool;     (* bool led_green_state = false *)
  pwm_enabled : bool;         (* bool pwm_enabled = true *)
  border_style : Z;           (* uint8_t border_style = 0 *)
  last_interrupt_time : Z     (* static uint32_t of gpio_callback, = 0 *)
}.

Definition initial : globals :=
  {| square_x := 60; square_y := 28; led_green_state := false;
     pwm_enabled := true; border_style := 0; last_interrupt_time := 0 |}.

Definition set_square_x (v : Z) (g : globals) : globals :=
  mkGlobals v (square_y g) (led_green_state g) (pwm_enabled g)
            (border_style g) (last_interrupt_time g).
Definition set_square_y (v : Z) (g : globals) : globals :=
  mkGlobals (square_x g) v (led_green_state g) (pwm_enabled g)
            (border_style g) (last_interrupt_time g).
Definition set_led_green_state (v : bool) (g : globals) : globals :=
  mkGlobals (square_x g) (square_y g) v (pwm_enabled g)
            (border_style g) (last_interrupt_time g).
Definition set_pwm_enabled (v : bool) (g : globals) : globals :=
  mkGlobals (square_x g) (square_y g) (led_green_state g) v
            (border_style g) (last_interrupt_time g).
Definition set_border_style (v : Z) (g : globals) : globals :=
  mkGlobals (square_x g) (square_y g) (led_green_state g) (pwm_enabled g)
            v (last_interrupt_time g).
Definition set_last_interrupt_time (v : Z) (g : globals) : globals :=
  mkGlobals (square_x g) (square_y g) (led_green_state g) (pwm_enabled g)
            (border_style g) v.

(** Calls that leave the program: SDK output calls and display primitives. *)
Inductive io_event : Type :=
| GpioPut (pin : Z) (value : bool)
| PwmSetGpioLevel (pin : Z) (level : Z)
| AdcSelectInput (channel : Z)
| Ssd1306Fill (value : bool)
| Ssd1306Rect (top left width height : Z) (value fill : bool)
| Ssd1306Hline (x0 x1 y : Z) (value : bool)
| Ssd1306Vline (x y0 y1 : Z) (value : bool)
| Ssd1306SendData
| SleepMs (ms : Z).

(** ** The monad of the program: globals threaded, I/O appended *)

Definition M (A : Type) : Type := globals -> A * globals * list io_event.

Definition ret {A : Type} (a : A) : M A := fun g => (a, g, []).

Definition bind {A B : Type} (m : M A) (k : A -> M B) : M B :=
  fun g =>
    let '(a, g1, t1) := m g in
    let '(b, g2, t2) := k a g1 in
    (b, g2, t1 ++ t2).

Definition get : M globals := fun g => (g, g, []).
Definition modify (f : globals -> globals) : M unit := fun g => (tt, f g, []).
Definition emit (e : io_event) : M unit := fun g => (tt, g, [e]).

Notation "x <- c1 ;; c2" := (bind c1 (fun x => c2))
  (at level 61, c1 at next level, right associativity).
Notation "c1 ;; c2" := (bind c1 (fun _ => c2))
  (at level 61, right associativity).

Definition exec {A : Type} (m : M A) (g : globals) : globals := snd (fst (m g)).
Definition trace {A : Type} (m : M A) (g : globals) : list io_event := snd (m g).

(** ** PWM output *)

(** [set_pwm_duty]: the level handed to [pwm_set_gpio_level] is gated by
    [pwm_enabled] at the time of the call. *)
Definition set_pwm_duty (gpio duty : Z) : M unit :=
  g <- get ;;
  emit (PwmSetGpioLevel gpio (if pwm_enabled g then duty else 0)).

(** The [uint16_t blue_pwm] of one loop iteration: initialised to 0, and
    overwritten outside the dead zone with an [int] product that is
    converted to 16 bits by the assignment. *)
Definition blue_pwm (vrx_value : Z) : Z :=
  if 150 <? Z.abs (vrx_value - JOYSTICK_CENTER)
  then u16 (Z.abs (vrx_value - JOYSTICK_CENTER) * 32)
  else 0.

(** The [uint16_t red_pwm] of one loop iteration. *)
Definition red_pwm (vry_value : Z) : Z :=
  if 150 <? Z.abs (vry_value - JOYSTICK_CENTER)
  then u16 (Z.abs (vry_value - JOYSTICK_CENTER) * 32)
  else 0.

(** ** Interrupt handler *)

(** [interrupt_time - last_interrupt_time] on [uint32_t]. *)
Definition elapsed (g : globals) (interrupt_time : Z) : Z :=
  u32 (interrupt_time - last_interrupt_time g).

(** [gpio_callback]; [interrupt_time] is the value read from
    [time_us_32()] on entry. *)
Definition gpio_callback (gpio events interrupt_time : Z) : M unit :=
  g <- get ;;
  if 200000 <? elapsed g interrupt_time then
    (if gpio =? SW_PIN then
       modify (fun g => set_led_green_state (negb (led_green_state g)) g) ;;
       g1 <- get ;;
       emit (GpioPut LED_G_PIN (led_green_state g1)) ;;
       modify (fun g => set_border_style (u8 (Z.rem (border_style g + 1) 3)) g)
     else if gpio =? BUTTON_A_PIN then
       modify (fun g => set_pwm_enabled (negb (pwm_enabled g)) g)
     else ret tt) ;;
    modify (set_last_interrupt_time interrupt_time)
  else ret tt.

(** ** Display *)

Definition draw_border (style : Z) : M unit :=
  if style =? 0 then
    emit (Ssd1306Rect 0 0 WIDTH HEIGHT true false)
  else if style =? 1 then
    emit (Ssd1306Rect 0 0 WIDTH HEIGHT true false) ;;
    emit (Ssd1306Rect 2 2 (WIDTH - 4) (HEIGHT - 4) true false)
  else if style =? 2 then
    emit (Ssd1306Hline 0 10 0 true) ;;
    emit (Ssd1306Hline (WIDTH - 10) (WIDTH - 1) 0 true) ;;
    emit (Ssd1306Hline 0 10 (HEIGHT - 1) true) ;;
    emit (Ssd1306Hline (WIDTH - 10) (WIDTH - 1) (HEIGHT - 1) true) ;;
    emit (Ssd1306Vline 0 0 10 true) ;;
    emit (Ssd1306Vline 0 (HEIGHT - 10) (HEIGHT - 1) true) ;;
    emit (Ssd1306Vline (WIDTH - 1) 0 10 true) ;;
    emit (Ssd1306Vline (WIDTH - 1) (HEIGHT - 10) (HEIGHT - 1) true)
  else ret tt.

(** ** Main loop *)

(** The two source files differ only in the motion limits of the marker. *)
Record limits : Type := mkLimits { limit_x : Z; limit_y : Z }.

Definition wide : limits := {| limit_x := 114; limit_y := 50 |}.
Definition narrow : limits := {| limit_x := 52; limit_y := 24 |}.

(** One iteration of [while (true)] in [main]; [vrx_value] and [vry_value]
    are the two results of [adc_read()].  [/] on [int] truncates: [Z.quot]. *)
Definition loop_body (lim : limits) (vrx_value vry_value : Z) : M unit :=
  emit (AdcSelectInput 0) ;;
  emit (AdcSelectInput 1) ;;
  set_pwm_duty LED_R_PIN (red_pwm vry_value) ;;
  set_pwm_duty LED_B_PIN (blue_pwm vrx_value) ;;
  modify (set_square_x
            (60 + Z.quot ((vry_value - JOYSTICK_CENTER) * limit_x lim) ADC_MAX)) ;;
  modify (set_square_y
            (28 - Z.quot ((vrx_value - JOYSTICK_CENTER) * limit_y lim) ADC_MAX)) ;;
  emit (Ssd1306Fill false) ;;
  g <- get ;;
  emit (Ssd1306Rect (square_y g) (square_x g) 8 8 true true) ;;
  draw_border (border_style g) ;;
  emit Ssd1306SendData ;;
  emit (SleepMs 20).

(** ** The running system *)

(** What drives the program after initialisation: a falling edge on a pin
    (the handler then reads the 32-bit microsecond timer) or one iteration
    of the main loop (which then samples the two ADC channels). *)
Inductive input : Type :=
| Irq (gpio events interrupt_time : Z)
| Tick (vrx_value vry_value : Z).

Definition valid_input (i : input) : Prop :=
  match i with
  | Irq gpio events interrupt_time =>
      0 <= gpio /\ 0 <= events < 2 ^ 32 /\ 0 <= interrupt_time < 2 ^ 32
  | Tick vrx_value vry_value =>
      0 <= vrx_value <= ADC_MAX /\ 0 <= vry_value <= ADC_MAX
  end.

Definition step (lim : limits) (i : input) : M unit :=
  match i with
  | Irq gpio events interrupt_time => gpio_callback gpio events interrupt_time
  | Tick vrx_value vry_value => loop_body lim vrx_value vry_value
  end.

Fixpoint run (lim : limits) (inputs : list input) (g : globals) : globals :=
  match inputs with
  | [] => g
  | i :: rest => run lim rest (exec (step lim i) g)
  end.

Inductive reachable (lim : limits) : globals -> Prop :=
| reachable_initial : reachable lim initial
| reachable_step : forall g i,
    reachable lim g -> valid_input i -> reachable lim (exec (step lim i) g).

(** Levels handed to [pwm_set_gpio_level] for [pin], in order. *)
Fixpoint pwm_levels (pin : Z) (t : list io_event) : list Z :=
  match t with
  | [] => []
  | PwmSetGpioLevel p level :: t' =>
      if p =? pin then level :: pwm_levels pin t' else pwm_levels pin t'
  | _ :: t' => pwm_levels pin t'
  end.

(** Values written to [pin] with [gpio_put], in order. *)
Fixpoint gpio_puts (pin : Z) (t : list io_event) : list bool :=
  match t with
  | [] => []
  | GpioPut p v :: t' =>
      if p =? pin then v :: gpio_puts pin t' else gpio_puts pin t'
  | _ :: t' => gpio_puts pin t'
  end.

(** All pin writes of a trace, whatever the pin. *)
Definition pin_writes (t : list io_event) : list io_event :=
  filter (fun e => match e with GpioPut _ _ | PwmSetGpioLevel _ _ => true
                             | _ => false end) t.

(** ** PWM set-up *)

(** SDK calls made while a PWM pin is set up. *)
Inductive setup_event : Type :=
| GpioSetFunctionPwm (gpio : Z)
| PwmSetWrap (slice_num wrap_value : Z)
| PwmSetEnabled (slice_num : Z) (enabled : bool).

(** [init_pwm]; the SDK's [pwm_gpio_to_slice_num] is taken as given. *)
Definition init_pwm (pwm_gpio_to_slice_num : Z -> Z) (gpio : Z)
  : list setup_event :=
  let slice_num := pwm_gpio_to_slice_num gpio in
  [GpioSetFunctionPwm gpio; PwmSetWrap slice_num PWM_MAX;
   PwmSetEnabled slice_num true].

(** ** Observing a run *)

(** The I/O of a whole run, in order. *)
Fixpoint run_trace (lim : limits) (inputs : list input) (g : globals)
  : list io_event :=
  match inputs with
  | [] => []
  | i :: rest =>
      trace (step lim i) g ++ run_trace lim rest (exec (step lim i) g)
  end.

(** Does the handler, entered in state [g], take the branch behind the
    debounce test for an edge on [pin]? *)
Definition passes_debounce (pin : Z) (g : globals) (i : input) : bool :=
  match i with
  | Irq gpio _ interrupt_time =>
      (gpio =? pin) && (200000 <? elapsed g interrupt_time)
  | Tick _ _ => false
  end.

(** Number of edges on [pin] that pass the debounce test along a run. *)
Fixpoint accepted_edges (pin : Z) (lim : limits) (inputs : list input)
  (g : globals) : Z :=
  match inputs with
  | [] => 0
  | i :: rest =>
      (if passes_debounce pin g i then 1 else 0)
      + accepted_edges pin lim rest (exec (step lim i) g)
  end.

(** An input that cannot get past the debounce test in a state whose
    last-accepted timestamp is that of [g]: any loop iteration, or an edge
    at most 200000 microseconds after that timestamp. *)
Definition within_window (g : globals) (i : input) : Prop :=
  match i with
  | Irq _ _ interrupt_time => elapsed g interrupt_time <= 200000
  | Tick _ _ => True
  end.

(** The coordinates handed to a display primitive lie on the display. *)
Definition on_display (e : io_event) : bool :=
  match e with
  | Ssd1306Rect y x w h _ _ =>
      (0 <=? y) && (0 <=? x) && (0 <=? w) && (0 <=? h)
      && (x + w <=? WIDTH) && (y + h <=? HEIGHT)
  | Ssd1306Hline x0 x1 y _ =>
      (0 <=? x0) && (x0 <=? x1) && (x1 <? WIDTH) && (0 <=? y) && (y <? HEIGHT)
  | Ssd1306Vline x y0 y1 _ =>
      (0 <=? x) && (x <? WIDTH) && (0 <=? y0) && (y0 <=? y1) && (y1 <? HEIGHT)
  | _ => true
  end.

(** ** Proof automation *)

(** Closes a goal about one loop iteration once the monad is unfolded: what
    remains is the choice of border, which the goal does not depend on. *)
Ltac border_cases g :=
  unfold draw_border;
  destruct (border_style g =? 0); [reflexivity|];
  destruct (border_style g =? 1); [reflexivity|];
  destruct (border_style g =? 2); reflexivity.

(** * Sanity checks on concrete inputs *)

Example blue_pwm_4095 : blue_pwm 4095 = 65504.
Proof. reflexivity. Qed.

Example blue_pwm_0 : blue_pwm 0 = 0.
Proof. reflexivity. Qed.

Example loop_body_centre :
  loop_body wide 2048 2048 initial =
  (tt, initial,
   [AdcSelectInput 0; AdcSelectInput 1;
    PwmSetGpioLevel LED_R_PIN 0; PwmSetGpioLevel LED_B_PIN 0;
    Ssd1306Fill false; Ssd1306Rect 28 60 8 8 true true;
    Ssd1306Rect 0 0 128 64 true false; Ssd1306SendData; SleepMs 20]).
Proof. reflexivity. Qed.

(** * Auxiliary facts *)

(** ** Machine arithmetic *)

Lemma u16_small (z : Z) : 0 <= z < 65536 -> u16 z = z.
Proof. intros H. unfold u16, wrap. apply Z.mod_small. exact H. Qed.

Lemma u8_small (z : Z) : 0 <= z < 256 -> u8 z = z.
Proof. intros H. unfold u8, wrap. apply Z.mod_small. exact H. Qed.

(** The unsigned difference of two 32-bit readings: the plain difference
    while the timer has not wrapped, one period more once it has. *)
Lemma u32_sub (later earlier : Z) :
  0 <= earlier < 2 ^ 32 -> 0 <= later < 2 ^ 32 ->
  u32 (later - earlier) =
  if earlier <=? later then later - earlier else later - earlier + 2 ^ 32.
Proof.
  intros He Hl. unfold u32, wrap.
  destruct (earlier <=? later) eqn:E.
  - apply Z.leb_le in E. apply Z.mod_small. lia.
  - apply Z.leb_gt in E. symmetry.
    apply Z.mod_unique with (q := -1); lia.
Qed.

(** No [int] computation of the loop leaves the 32-bit range, so that
    reading the C arithmetic in [Z] loses nothing. *)
Lemma loop_int_arithmetic_in_range (raw limit : Z) :
  0 <= raw <= 65535 -> 0 <= limit <= 114 ->
  int_range (raw - JOYSTICK_CENTER) /\
  int_range (Z.abs (raw - JOYSTICK_CENTER) * 32) /\
  int_range ((raw - JOYSTICK_CENTER) * limit) /\
  int_range (60 + Z.quot ((raw - JOYSTICK_CENTER) * limit) ADC_MAX) /\
  int_range (28 - Z.quot ((raw - JOYSTICK_CENTER) * limit) ADC_MAX).
Proof.
  unfold int_range, JOYSTICK_CENTER, ADC_MAX. intros Hr Hl.
  assert (-2048 * 114 <= (raw - 2048) * limit <= 63487 * 114) by nia.
  repeat split; try lia;
    Z.to_euclidean_division_equations; lia.
Qed.

(** ** The duty computed for one axis *)

Lemma blue_pwm_deadzone (r : Z) :
  Z.abs (r - JOYSTICK_CENTER) <= 150 -> blue_pwm r = 0.
Proof.
  intros H. unfold blue_pwm.
  destruct (150 <? Z.abs (r - JOYSTICK_CENTER)) eqn:E; [|reflexivity].
  apply Z.ltb_lt in E. lia.
Qed.

Lemma red_pwm_deadzone (r : Z) :
  Z.abs (r - JOYSTICK_CENTER) <= 150 -> red_pwm r = 0.
Proof.
  intros H. unfold red_pwm.
  destruct (150 <? Z.abs (r - JOYSTICK_CENTER)) eqn:E; [|reflexivity].
  apply Z.ltb_lt in E. lia.
Qed.

(** Away from raw value 0 the product fits in 16 bits and is stored as is. *)
Lemma blue_pwm_scaled (r : Z) :
  1 <= r <= ADC_MAX -> 150 < Z.abs (r - JOYSTICK_CENTER) ->
  blue_pwm r = Z.abs (r - JOYSTICK_CENTER) * 32.
Proof.
  unfold ADC_MAX. intros Hr Hd. unfold blue_pwm.
  destruct (150 <? Z.abs (r - JOYSTICK_CENTER)) eqn:E.
  - apply u16_small. unfold JOYSTICK_CENTER in *. lia.
  - apply Z.ltb_ge in E. lia.
Qed.

Lemma red_pwm_scaled (r : Z) :
  1 <= r <= ADC_MAX -> 150 < Z.abs (r - JOYSTICK_CENTER) ->
  red_pwm r = Z.abs (r - JOYSTICK_CENTER) * 32.
Proof.
  unfold ADC_MAX. intros Hr Hd. unfold red_pwm.
  destruct (150 <? Z.abs (r - JOYSTICK_CENTER)) eqn:E.
  - apply u16_small. unfold JOYSTICK_CENTER in *. lia.
  - apply Z.ltb_ge in E. lia.
Qed.

(** The saturating mapping the duty is compared with, and where the two
    agree: everywhere in the ADC range except at raw value 0. *)
Lemma blue_pwm_saturated_from_1 (r : Z) :
  1 <= r <= ADC_MAX -> 150 < Z.abs (r - JOYSTICK_CENTER) ->
  blue_pwm r = Z.min (Z.abs (r - JOYSTICK_CENTER) * 32) PWM_MAX.
Proof.
  intros Hr Hd. rewrite blue_pwm_scaled by assumption.
  unfold ADC_MAX, JOYSTICK_CENTER, PWM_MAX in *. lia.
Qed.

Lemma red_pwm_saturated_from_1 (r : Z) :
  1 <= r <= ADC_MAX -> 150 < Z.abs (r - JOYSTICK_CENTER) ->
  red_pwm r = Z.min (Z.abs (r - JOYSTICK_CENTER) * 32) PWM_MAX.
Proof.
  intros Hr Hd. rewrite red_pwm_scaled by assumption.
  unfold ADC_MAX, JOYSTICK_CENTER, PWM_MAX in *. lia.
Qed.

(** ** One loop iteration, symbolically *)

Lemma draw_border_exec (style : Z) (g : globals) :
  exec (draw_border style) g = g.
Proof.
  unfold draw_border, exec.
  destruct (style =? 0); [reflexivity|].
  destruct (style =? 1); [reflexivity|].
  destruct (style =? 2); reflexivity.
Qed.

Lemma draw_border_no_pin_write (style : Z) (g : globals) :
  pin_writes (trace (draw_border style) g) = [].
Proof.
  unfold draw_border, trace.
  destruct (style =? 0); [reflexivity|].
  destruct (style =? 1); [reflexivity|].
  destruct (style =? 2); reflexivity.
Qed.

Lemma loop_body_exec (lim : limits) (vrx_value vry_value : Z) (g : globals) :
  exec (loop_body lim vrx_value vry_value) g =
  set_square_y
    (28 - Z.quot ((vrx_value - JOYSTICK_CENTER) * limit_y lim) ADC_MAX)
    (set_square_x
       (60 + Z.quot ((vry_value - JOYSTICK_CENTER) * limit_x lim) ADC_MAX) g).
Proof.
  unfold loop_body, exec, bind, set_pwm_duty, get, emit, modify. cbn.
  border_cases g.
Qed.

Lemma loop_body_red_level (lim : limits) (vrx_value vry_value : Z) (g : globals) :
  pwm_levels LED_R_PIN (trace (loop_body lim vrx_value vry_value) g) =
  [if pwm_enabled g then red_pwm vry_value else 0].
Proof.
  unfold loop_body, trace, bind, set_pwm_duty, get, emit, modify. cbn.
  border_cases g.
Qed.

Lemma loop_body_blue_level (lim : limits) (vrx_value vry_value : Z) (g : globals) :
  pwm_levels LED_B_PIN (trace (loop_body lim vrx_value vry_value) g) =
  [if pwm_enabled g then blue_pwm vrx_value else 0].
Proof.
  unfold loop_body, trace, bind, set_pwm_duty, get, emit, modify. cbn.
  border_cases g.
Qed.

Lemma loop_body_draws_marker (lim : limits) (vrx_value vry_value : Z) (g : globals) :
  In (Ssd1306Rect (square_y (exec (loop_body lim vrx_value vry_value) g))
                  (square_x (exec (loop_body lim vrx_value vry_value) g))
                  8 8 true true)
     (trace (loop_body lim vrx_value vry_value) g).
Proof.
  rewrite loop_body_exec.
  unfold loop_body, trace, bind, set_pwm_duty, get, emit, modify. cbn.
  unfold draw_border.
  destruct (border_style g =? 0); [cbn; tauto|].
  destruct (border_style g =? 1); [cbn; tauto|].
  destruct (border_style g =? 2); cbn; tauto.
Qed.

(** ** The handler, case by case *)

Lemma gpio_callback_discarded (gpio events now : Z) (g : globals) :
  elapsed g now <= 200000 ->
  gpio_callback gpio events now g = (tt, g, []).
Proof.
  intros H. unfold gpio_callback, bind, get.
  destruct (200000 <? elapsed g now) eqn:E; [|reflexivity].
  apply Z.ltb_lt in E. lia.
Qed.

Lemma gpio_callback_sw (events now : Z) (g : globals) :
  200000 < elapsed g now ->
  gpio_callback SW_PIN events now g =
  (tt,
   {| square_x := square_x g; square_y := square_y g;
      led_green_state := negb (led_green_state g);
      pwm_enabled := pwm_enabled g;
      border_style := u8 (Z.rem (border_style g + 1) 3);
      last_interrupt_time := now |},
   [GpioPut LED_G_PIN (negb (led_green_state g))]).
Proof.
  intros H. apply Z.ltb_lt in H.
  unfold gpio_callback, bind, get. rewrite H. reflexivity.
Qed.

Lemma gpio_callback_button_a (events now : Z) (g : globals) :
  200000 < elapsed g now ->
  gpio_callback BUTTON_A_PIN events now g =
  (tt,
   {| square_x := square_x g; square_y := square_y g;
      led_green_state := led_green_state g;
      pwm_enabled := negb (pwm_enabled g);
      border_style := border_style g;
      last_interrupt_time := now |},
   []).
Proof.
  intros H. apply Z.ltb_lt in H.
  unfold gpio_callback, bind, get. rewrite H. reflexivity.
Qed.

Lemma gpio_callback_other_pin (gpio events now : Z) (g : globals) :
  200000 < elapsed g now -> gpio <> SW_PIN -> gpio <> BUTTON_A_PIN ->
  gpio_callback gpio events now g = (tt, set_last_interrupt_time now g, []).
Proof.
  intros H Hs Hb. apply Z.ltb_lt in H.
  apply Z.eqb_neq in Hs. apply Z.eqb_neq in Hb.
  unfold gpio_callback, bind, get. rewrite H, Hs, Hb. reflexivity.
Qed.

(** The handler, by cases on the pin and on the debounce test. *)
Lemma gpio_callback_cases (gpio events now : Z) (g : globals) :
  (elapsed g now <= 200000 /\
   gpio_callback gpio events now g = (tt, g, []))
  \/ (200000 < elapsed g now /\ gpio = SW_PIN /\
      border_style (exec (gpio_callback gpio events now) g) =
      u8 (Z.rem (border_style g + 1) 3))
  \/ (200000 < elapsed g now /\ gpio <> SW_PIN /\
      border_style (exec (gpio_callback gpio events now) g) = border_style g).
Proof.
  destruct (Z_le_gt_dec (elapsed g now) 200000) as [Hd|Ha].
  - left. split; [exact Hd|]. apply gpio_callback_discarded. exact Hd.
  - right. apply Z.gt_lt in Ha.
    destruct (Z.eq_dec gpio SW_PIN) as [->|Hs].
    + left. repeat split; [exact Ha|].
      unfold exec. rewrite gpio_callback_sw by exact Ha. reflexivity.
    + right. repeat split; [exact Ha|exact Hs|].
      destruct (Z.eq_dec gpio BUTTON_A_PIN) as [->|Hb].
      * unfold exec. rewrite gpio_callback_button_a by exact Ha. reflexivity.
      * unfold exec. rewrite gpio_callback_other_pin by assumption. reflexivity.
Qed.

(** The style after one accepted press of the joystick button is again one
    of the three styles, whatever 8-bit value it had. *)
Lemma next_style_legal (b : Z) :
  0 <= b -> In (u8 (Z.rem (b + 1) 3)) [0; 1; 2].
Proof.
  intros Hb.
  assert (Hr : 0 <= Z.rem (b + 1) 3 < 3) by (apply Z.rem_bound_pos; lia).
  rewrite u8_small by lia. cbn. lia.
Qed.

Lemma next_style_mod3 (b : Z) :
  In b [0; 1; 2] -> u8 (Z.rem (b + 1) 3) = (b + 1) mod 3.
Proof.
  cbn. intros [<-|[<-|[<-|[]]]]; reflexivity.
Qed.

Lemma next_style_cycle (b : Z) :
  In b [0; 1; 2] ->
  u8 (Z.rem (u8 (Z.rem (u8 (Z.rem (b + 1) 3) + 1) 3) + 1) 3) = b.
Proof.
  cbn. intros [<-|[<-|[<-|[]]]]; reflexivity.
Qed.

(** ** Invariant of the running system *)

Lemma step_border_style_legal (lim : limits) (i : input) (g : globals) :
  In (border_style g) [0; 1; 2] ->
  In (border_style (exec (step lim i) g)) [0; 1; 2].
Proof.
  intros Hg. destruct i as [gpio events now|vrx vry]; cbn [step].
  - destruct (gpio_callback_cases gpio events now g)
      as [[_ E]|[[_ [_ E]]|[_ [_ E]]]].
    + unfold exec. rewrite E. exact Hg.
    + rewrite E. apply next_style_legal. cbn in Hg. lia.
    + rewrite E. exact Hg.
  - rewrite loop_body_exec. exact Hg.
Qed.

Lemma reachable_border_style (lim : limits) (g : globals) :
  reachable lim g -> In (border_style g) [0; 1; 2].
Proof.
  induction 1 as [|g i Hg IH Hv].
  - cbn. tauto.
  - apply step_border_style_legal. exact IH.
Qed.

Lemma reachable_run (lim : limits) (inputs : list input) :
  forall g, reachable lim g -> Forall valid_input inputs ->
            reachable lim (run lim inputs g).
Proof.
  induction inputs as [|i rest IH]; intros g Hg Hv; cbn [run].
  - exact Hg.
  - inversion Hv as [|? ? Hi Hrest]; subst.
    apply IH; [|exact Hrest]. apply reachable_step; assumption.
Qed.

Lemma run_app (lim : limits) (xs ys : list input) (g : globals) :
  run lim (xs ++ ys) g = run lim ys (run lim xs g).
Proof.
  revert g. induction xs as [|x xs IH]; intros g; cbn [run app].
  - reflexivity.
  - apply IH.
Qed.

(** Reachable states are exactly the results of running valid inputs from
    the initial state. *)
Lemma reachable_iff_run (lim : limits) (g : globals) :
  reachable lim g <->
  exists inputs, Forall valid_input inputs /\ g = run lim inputs initial.
Proof.
  split.
  - induction 1 as [|g i Hg [inputs [Hv ->]] Hi].
    + exists []. split; [constructor|reflexivity].
    + exists (inputs ++ [i]). split.
      * apply Forall_app. split; [exact Hv|]. constructor; [exact Hi|constructor].
      * rewrite run_app. reflexivity.
  - intros [inputs [Hv ->]].
    apply reachable_run; [apply reachable_initial|exact Hv].
Qed.

(** * PWM mapping *)

(** With the PWM disabled both channels are driven at 0, whatever the
    samples. *)
Lemma pwm_disabled_level_is_zero
  (lim : limits) (g : globals) (vrx_value vry_value : Z) :
  pwm_enabled g = false ->
  pwm_levels LED_B_PIN (trace (loop_body lim vrx_value vry_value) g) = [0] /\
  pwm_levels LED_R_PIN (trace (loop_body lim vrx_value vry_value) g) = [0].
Proof.
  intros Hd. rewrite loop_body_blue_level, loop_body_red_level, Hd.
  split; reflexivity.
Qed.

(** With the PWM enabled and a raw value other than 0, the level driven
    outside the dead zone is the saturating one. *)
Lemma pwm_enabled_level_from_1
  (lim : limits) (g : globals) (vrx_value vry_value : Z) :
  pwm_enabled g = true ->
  (1 <= vrx_value <= ADC_MAX -> 150 < Z.abs (vrx_value - JOYSTICK_CENTER) ->
   pwm_levels LED_B_PIN (trace (loop_body lim vrx_value vry_value) g) =
   [Z.min (Z.abs (vrx_value - JOYSTICK_CENTER) * 32) PWM_MAX]) /\
  (1 <= vry_value <= ADC_MAX -> 150 < Z.abs (vry_value - JOYSTICK_CENTER) ->
   pwm_levels LED_R_PIN (trace (loop_body lim vrx_value vry_value) g) =
   [Z.min (Z.abs (vry_value - JOYSTICK_CENTER) * 32) PWM_MAX]).
Proof.
  intros He. rewrite loop_body_blue_level, loop_body_red_level, He.
  split; intros Hr Hd.
  - rewrite blue_pwm_saturated_from_1 by assumption. reflexivity.
  - rewrite red_pwm_saturated_from_1 by assumption. reflexivity.
Qed.

(** C1 (evaluated at the input where it fails).  The specification asks
    for the level min(|r - 2048| * 32, 65535) outside the dead zone when the
    PWM is enabled.  At raw value 0, which is outside the dead zone, that would be
    65535; the loop drives level 0 on the axis, for the blue channel
    (raw value read as [vrx_value]) and for the red one ([vry_value]), in
    both variants of the program. *)
Theorem level_at_raw_zero_is_not_saturated (lim : limits) :
  pwm_enabled initial = true /\
  150 < Z.abs (0 - JOYSTICK_CENTER) /\
  Z.min (Z.abs (0 - JOYSTICK_CENTER) * 32) PWM_MAX = 65535 /\
  pwm_levels LED_B_PIN (trace (loop_body lim 0 2048) initial) = [0] /\
  pwm_levels LED_R_PIN (trace (loop_body lim 2048 0) initial) = [0].
Proof.
  rewrite loop_body_blue_level, loop_body_red_level.
  repeat split.
Qed.

(** C2.  For every raw value in 0..4095 whose distance from 2048 is at most
    150 (bounds included), the level driven for that axis in a loop
    iteration is exactly 0, whether or not the PWM is enabled: the blue
    channel for [vrx_value], the red channel for [vry_value]. *)
Theorem deadzone_level_is_zero
  (lim : limits) (g : globals) (vrx_value vry_value : Z) :
  0 <= vrx_value <= 4095 -> 0 <= vry_value <= 4095 ->
  (Z.abs (vrx_value - 2048) <= 150 ->
   pwm_levels LED_B_PIN (trace (loop_body lim vrx_value vry_value) g) = [0])
  /\
  (Z.abs (vry_value - 2048) <= 150 ->
   pwm_levels LED_R_PIN (trace (loop_body lim vrx_value vry_value) g) = [0]).
Proof.
  intros _ _. rewrite loop_body_blue_level, loop_body_red_level.
  split; intros Hd.
  - rewrite blue_pwm_deadzone by exact Hd. destruct (pwm_enabled g); reflexivity.
  - rewrite red_pwm_deadzone by exact Hd. destruct (pwm_enabled g); reflexivity.
Qed.

Lemma deadzone_level_is_zero_witness :
  (0 <= 2198 <= 4095) /\ (0 <= 1898 <= 4095) /\
  Z.abs (2198 - 2048) <= 150 /\ Z.abs (1898 - 2048) <= 150 /\
  pwm_levels LED_B_PIN (trace (loop_body wide 2198 1898) initial) = [0] /\
  pwm_levels LED_R_PIN (trace (loop_body wide 2198 1898) initial) = [0].
Proof.
  split; [lia|]. split; [lia|]. split; [lia|]. split; [lia|].
  destruct (deadzone_level_is_zero wide initial 2198 1898) as [Hb Hr];
    [lia|lia|].
  split; [apply Hb|apply Hr]; lia.
Defined.

(** C8.  With the PWM enabled, the sample vrx = 4095, vry = 2048 drives the
    blue channel at exactly 2047 * 32 = 65504, which is within the 16-bit
    range, and the red channel at exactly 0. *)
Theorem scenario_vrx_4095_vry_2048 (lim : limits) (g : globals) :
  pwm_enabled g = true ->
  pwm_levels LED_B_PIN (trace (loop_body lim 4095 2048) g) = [65504] /\
  pwm_levels LED_R_PIN (trace (loop_body lim 4095 2048) g) = [0] /\
  65504 = 2047 * 32 /\ 65504 <= PWM_MAX.
Proof.
  intros He. rewrite loop_body_blue_level, loop_body_red_level, He.
  repeat split. unfold PWM_MAX. lia.
Qed.

Lemma scenario_vrx_4095_vry_2048_witness :
  pwm_enabled initial = true /\
  pwm_levels LED_B_PIN (trace (loop_body wide 4095 2048) initial) = [65504] /\
  pwm_levels LED_R_PIN (trace (loop_body wide 4095 2048) initial) = [0] /\
  65504 = 2047 * 32 /\ 65504 <= PWM_MAX.
Proof.
  split; [reflexivity|].
  apply (scenario_vrx_4095_vry_2048 wide initial). reflexivity.
Defined.

(** C10.  With the PWM enabled, raw value 0 on an axis lies 2048 from the
    centre, outside the dead zone; the product 2048 * 32 = 65536 stored in
    the 16-bit duty wraps to 0 and the level driven for the axis is 0,
    while every other raw value below the dead zone (1..1897) drives the
    positive level (2048 - r) * 32. *)
Theorem full_low_deflection_wraps_to_zero
  (lim : limits) (g : globals) (other : Z) :
  pwm_enabled g = true ->
  150 < Z.abs (0 - JOYSTICK_CENTER) /\
  Z.abs (0 - JOYSTICK_CENTER) * 32 = 65536 /\
  u16 65536 = 0 /\
  pwm_levels LED_B_PIN (trace (loop_body lim 0 other) g) = [0] /\
  pwm_levels LED_R_PIN (trace (loop_body lim other 0) g) = [0] /\
  (forall r, 1 <= r <= 1897 ->
     0 < (2048 - r) * 32 /\
     pwm_levels LED_B_PIN (trace (loop_body lim r other) g) = [(2048 - r) * 32] /\
     pwm_levels LED_R_PIN (trace (loop_body lim other r) g) = [(2048 - r) * 32]).
Proof.
  intros He.
  split; [reflexivity|]. split; [reflexivity|]. split; [reflexivity|].
  split; [rewrite loop_body_blue_level, He; reflexivity|].
  split; [rewrite loop_body_red_level, He; reflexivity|].
  intros r Hr. split; [lia|].
  rewrite loop_body_blue_level, loop_body_red_level, He.
  rewrite blue_pwm_scaled, red_pwm_scaled;
    unfold ADC_MAX, JOYSTICK_CENTER; try lia.
  replace (Z.abs (r - 2048)) with (2048 - r) by lia. split; reflexivity.
Qed.

Lemma full_low_deflection_wraps_to_zero_witness :
  pwm_enabled initial = true /\
  pwm_levels LED_B_PIN (trace (loop_body wide 0 2048) initial) = [0] /\
  pwm_levels LED_B_PIN (trace (loop_body wide 1 2048) initial) = [65504].
Proof.
  split; [reflexivity|].
  pose proof (full_low_deflection_wraps_to_zero wide initial 2048 eq_refl)
    as [_ [_ [_ [H0 [_ Hnear]]]]].
  split; [exact H0|].
  destruct (Hnear 1) as [_ [H1 _]]; [lia|]. exact H1.
Defined.

(** * Marker position *)

(** C3.  For every pair of samples in 0..4095, and in both variants
    (limits 114/50 and 52/24), a loop iteration leaves
    square_x = 60 + (vry - 2048) * limit_x / 4095 and
    square_y = 28 - (vrx - 2048) * limit_y / 4095 (truncating division),
    draws the 8x8 marker there, and the marker lies inside the 128x64
    display: 0 <= square_x, square_x + 8 <= 128, 0 <= square_y,
    square_y + 8 <= 64. *)
Theorem marker_stays_inside_display
  (lim : limits) (g : globals) (vrx_value vry_value : Z) :
  In lim [wide; narrow] ->
  0 <= vrx_value <= 4095 -> 0 <= vry_value <= 4095 ->
  let g' := exec (loop_body lim vrx_value vry_value) g in
  square_x g' = 60 + Z.quot ((vry_value - 2048) * limit_x lim) 4095 /\
  square_y g' = 28 - Z.quot ((vrx_value - 2048) * limit_y lim) 4095 /\
  In (Ssd1306Rect (square_y g') (square_x g') 8 8 true true)
     (trace (loop_body lim vrx_value vry_value) g) /\
  0 <= square_x g' /\ square_x g' + 8 <= WIDTH /\
  0 <= square_y g' /\ square_y g' + 8 <= HEIGHT.
Proof.
  intros Hlim Hx Hy g'.
  split; [subst g'; rewrite loop_body_exec; reflexivity|].
  split; [subst g'; rewrite loop_body_exec; reflexivity|].
  split; [apply loop_body_draws_marker|].
  subst g'. rewrite loop_body_exec.
  unfold WIDTH, HEIGHT, JOYSTICK_CENTER, ADC_MAX. cbn [square_x square_y set_square_x set_square_y].
  destruct Hlim as [<-|[<-|[]]]; cbn [limit_x limit_y wide narrow];
    Z.to_euclidean_division_equations; lia.
Qed.

Lemma marker_stays_inside_display_witness :
  In wide [wide; narrow] /\ 0 <= 0 <= 4095 /\ 0 <= 4095 <= 4095 /\
  square_x (exec (loop_body wide 0 4095) initial) = 116 /\
  square_y (exec (loop_body wide 0 4095) initial) = 53 /\
  116 + 8 <= WIDTH /\ 53 + 8 <= HEIGHT.
Proof.
  split; [left; reflexivity|]. split; [lia|]. split; [lia|].
  destruct (marker_stays_inside_display wide initial 0 4095)
    as [Ex [Ey [_ [_ [Hx [_ Hy]]]]]]; [left; reflexivity|lia|lia|].
  split; [exact Ex|]. split; [exact Ey|].
  split; [exact Hx|exact Hy].
Defined.

(** C7.  Each marker coordinate is monotone in the raw value that drives
    it: for 0 <= r1 <= r2 <= 4095 the horizontal coordinate [square_x]
    (driven by [vry_value], added) computed from r1 is at most the one from
    r2, and the vertical coordinate [square_y] (driven by [vrx_value],
    subtracted) computed from r1 is at least the one from r2; at raw value
    2048 the coordinates are exactly the offsets 60 and 28.  Both variants. *)
Theorem marker_coordinates_monotone
  (lim : limits) (g : globals) (r1 r2 other : Z) :
  In lim [wide; narrow] ->
  0 <= r1 -> r1 <= r2 -> r2 <= 4095 ->
  square_x (exec (loop_body lim other r1) g)
    <= square_x (exec (loop_body lim other r2) g) /\
  square_y (exec (loop_body lim r1 other) g)
    >= square_y (exec (loop_body lim r2 other) g) /\
  square_x (exec (loop_body lim other 2048) g) = 60 /\
  square_y (exec (loop_body lim 2048 other) g) = 28.
Proof.
  intros Hlim H0 H12 Hmax. rewrite !loop_body_exec.
  cbn [square_x square_y set_square_x set_square_y].
  unfold JOYSTICK_CENTER, ADC_MAX.
  assert (Hq : forall a b, a <= b -> Z.quot a 4095 <= Z.quot b 4095)
    by (intros a b Hab; apply Z.quot_le_mono; lia).
  destruct Hlim as [<-|[<-|[]]]; cbn [limit_x limit_y wide narrow];
    repeat split; try reflexivity.
  - pose proof (Hq ((r1 - 2048) * 114) ((r2 - 2048) * 114)). lia.
  - pose proof (Hq ((r1 - 2048) * 50) ((r2 - 2048) * 50)). lia.
  - pose proof (Hq ((r1 - 2048) * 52) ((r2 - 2048) * 52)). lia.
  - pose proof (Hq ((r1 - 2048) * 24) ((r2 - 2048) * 24)). lia.
Qed.

Lemma marker_coordinates_monotone_witness :
  In narrow [wide; narrow] /\ 0 <= 100 /\ 100 <= 3000 /\ 3000 <= 4095 /\
  square_x (exec (loop_body narrow 2048 100) initial)
    <= square_x (exec (loop_body narrow 2048 3000) initial) /\
  square_y (exec (loop_body narrow 100 2048) initial)
    >= square_y (exec (loop_body narrow 3000 2048) initial).
Proof.
  split; [right; left; reflexivity|].
  split; [lia|]. split; [lia|]. split; [lia|].
  destruct (marker_coordinates_monotone narrow initial 100 3000 2048)
    as [Hx [Hy _]]; [right; left; reflexivity|lia|lia|lia|].
  split; [exact Hx|exact Hy].
Defined.

(** * Interrupt handler *)

(** C4.  Timestamps are readings of the 32-bit microsecond timer and [d] is
    how long after the last accepted edge the handler is entered (the plain
    difference, or one timer period more when the timer wrapped in
    between); the last-accepted timestamp is shared by both pins.  If
    [d <= 200000] the handler returns with every global unchanged and
    without any output; if [d > 200000] the event is accepted: its
    timestamp becomes the last-accepted one, the joystick button inverts
    the green LED, writes it to the pin and advances the border style, and
    button A inverts [pwm_enabled]. *)
Theorem debounce_window (gpio events now d : Z) (g : globals) :
  0 <= last_interrupt_time g < 2 ^ 32 -> 0 <= now < 2 ^ 32 ->
  d = (if last_interrupt_time g <=? now
       then now - last_interrupt_time g
       else now - last_interrupt_time g + 2 ^ 32) ->
  (d <= 200000 -> gpio_callback gpio events now g = (tt, g, []))
  /\
  (200000 < d ->
   last_interrupt_time (exec (gpio_callback gpio events now) g) = now /\
   (gpio = SW_PIN ->
    led_green_state (exec (gpio_callback gpio events now) g)
      = negb (led_green_state g) /\
    border_style (exec (gpio_callback gpio events now) g)
      = u8 (Z.rem (border_style g + 1) 3) /\
    trace (gpio_callback gpio events now) g
      = [GpioPut LED_G_PIN (negb (led_green_state g))]) /\
   (gpio = BUTTON_A_PIN ->
    pwm_enabled (exec (gpio_callback gpio events now) g)
      = negb (pwm_enabled g))).
Proof.
  intros Hlast Hnow Hd.
  assert (He : elapsed g now = d)
    by (unfold elapsed; rewrite u32_sub by assumption; symmetry; exact Hd).
  split; intros Hcmp.
  - apply gpio_callback_discarded. lia.
  - assert (Ha : 200000 < elapsed g now) by lia.
    split; [|split].
    + destruct (Z.eq_dec gpio SW_PIN) as [->|Hs];
        [unfold exec; rewrite gpio_callback_sw by exact Ha; reflexivity|].
      destruct (Z.eq_dec gpio BUTTON_A_PIN) as [->|Hb];
        [unfold exec; rewrite gpio_callback_button_a by exact Ha; reflexivity|].
      unfold exec. rewrite gpio_callback_other_pin by assumption. reflexivity.
    + intros ->. unfold exec, trace.
      rewrite gpio_callback_sw by exact Ha. repeat split.
    + intros ->. unfold exec.
      rewrite gpio_callback_button_a by exact Ha. reflexivity.
Qed.

Lemma debounce_window_witness :
  (0 <= last_interrupt_time initial < 2 ^ 32) /\
  (0 <= 200000 < 2 ^ 32) /\ (0 <= 200001 < 2 ^ 32) /\
  gpio_callback SW_PIN 4 200000 initial = (tt, initial, []) /\
  last_interrupt_time (exec (gpio_callback SW_PIN 4 200001) initial) = 200001.
Proof.
  split; [cbn; lia|]. split; [lia|]. split; [lia|].
  split.
  - destruct (debounce_window SW_PIN 4 200000 200000 initial) as [Hd _];
      [cbn; lia|lia|reflexivity|].
    apply Hd. lia.
  - destruct (debounce_window SW_PIN 4 200001 200001 initial) as [_ Ha];
      [cbn; lia|lia|reflexivity|].
    destruct Ha as [Ht _]; [lia|]. exact Ht.
Defined.

(** C6.  An accepted edge on button A inverts [pwm_enabled] and records its
    timestamp, and does nothing else: [led_green_state], [border_style] and
    the marker position keep their values and no pin is written. *)
Theorem button_a_toggles_only_pwm_enabled (events now : Z) (g : globals) :
  200000 < elapsed g now ->
  exec (gpio_callback BUTTON_A_PIN events now) g =
    set_last_interrupt_time now (set_pwm_enabled (negb (pwm_enabled g)) g) /\
  pwm_enabled (exec (gpio_callback BUTTON_A_PIN events now) g)
    = negb (pwm_enabled g) /\
  led_green_state (exec (gpio_callback BUTTON_A_PIN events now) g)
    = led_green_state g /\
  border_style (exec (gpio_callback BUTTON_A_PIN events now) g)
    = border_style g /\
  pin_writes (trace (gpio_callback BUTTON_A_PIN events now) g) = [] /\
  trace (gpio_callback BUTTON_A_PIN events now) g = [].
Proof.
  intros Ha. unfold exec, trace.
  rewrite gpio_callback_button_a by exact Ha. repeat split.
Qed.

Lemma button_a_toggles_only_pwm_enabled_witness :
  200000 < elapsed initial 250000 /\
  exec (gpio_callback BUTTON_A_PIN 4 250000) initial =
    {| square_x := 60; square_y := 28; led_green_state := false;
       pwm_enabled := false; border_style := 0;
       last_interrupt_time := 250000 |} /\
  trace (gpio_callback BUTTON_A_PIN 4 250000) initial = [].
Proof.
  split; [reflexivity|].
  destruct (button_a_toggles_only_pwm_enabled 4 250000 initial)
    as [He [_ [_ [_ [_ Ht]]]]]; [reflexivity|].
  split; [exact He|exact Ht].
Defined.

(** C5.  From any state the program can be in, three consecutive accepted
    edges on the joystick button bring [border_style] back to its value:
    each of them maps the style to (style + 1) mod 3.  Each of them also
    inverts [led_green_state], so that two restore it. *)
Theorem mode_select_cycle
  (lim : limits) (g : globals) (e1 e2 e3 t1 t2 t3 : Z) :
  reachable lim g ->
  200000 < elapsed g t1 ->
  200000 < elapsed (run lim [Irq SW_PIN e1 t1] g) t2 ->
  200000 < elapsed (run lim [Irq SW_PIN e1 t1; Irq SW_PIN e2 t2] g) t3 ->
  let g1 := run lim [Irq SW_PIN e1 t1] g in
  let g2 := run lim [Irq SW_PIN e1 t1; Irq SW_PIN e2 t2] g in
  let g3 := run lim [Irq SW_PIN e1 t1; Irq SW_PIN e2 t2; Irq SW_PIN e3 t3] g in
  border_style g1 = (border_style g + 1) mod 3 /\
  border_style g2 = (border_style g1 + 1) mod 3 /\
  border_style g3 = (border_style g2 + 1) mod 3 /\
  border_style g3 = border_style g /\
  led_green_state g1 = negb (led_green_state g) /\
  led_green_state g2 = led_green_state g /\
  led_green_state g3 = negb (led_green_state g).
Proof.
  intros Hr H1 H2 H3. cbn [run step] in *.
  pose proof (reachable_border_style lim g Hr) as Hb.
  unfold exec in *.
  rewrite (gpio_callback_sw e1 t1 g H1) in *. cbn [fst snd] in *.
  rewrite gpio_callback_sw in * by exact H2. cbn [fst snd] in *.
  rewrite gpio_callback_sw by exact H3. cbn [fst snd].
  cbn [border_style led_green_state].
  rewrite negb_involutive.
  cbn in Hb. destruct Hb as [<-|[<-|[<-|[]]]]; repeat split.
Qed.

Lemma mode_select_cycle_witness :
  reachable wide initial /\
  200000 < elapsed initial 300000 /\
  border_style (run wide [Irq SW_PIN 4 300000] initial) = 1 /\
  border_style
    (run wide [Irq SW_PIN 4 300000; Irq SW_PIN 4 600000] initial) = 2 /\
  border_style
    (run wide [Irq SW_PIN 4 300000; Irq SW_PIN 4 600000; Irq SW_PIN 4 900000]
         initial) = border_style initial.
Proof.
  split; [apply reachable_initial|]. split; [reflexivity|].
  destruct (mode_select_cycle wide initial 4 4 4 300000 600000 900000)
    as [E1 [E2 [_ [E3 _]]]];
    [apply reachable_initial|reflexivity|reflexivity|reflexivity|].
  split; [exact E1|]. split; [exact E2|exact E3].
Defined.

(** C9.  [border_style] starts at 0 and is 0, 1 or 2 in every state the
    running program reaches, whatever the sequence of interrupts and loop
    iterations.  A step changes it only when it is an accepted edge on the
    joystick button, and then to (border_style + 1) % 3. *)
Theorem border_style_stays_legal (lim : limits) :
  border_style initial = 0 /\
  (forall g, reachable lim g -> In (border_style g) [0; 1; 2]) /\
  (forall inputs, Forall valid_input inputs ->
     In (border_style (run lim inputs initial)) [0; 1; 2]) /\
  (forall g i,
     border_style (exec (step lim i) g) <> border_style g ->
     exists events now,
       i = Irq SW_PIN events now /\ 200000 < elapsed g now /\
       border_style (exec (step lim i) g) = u8 (Z.rem (border_style g + 1) 3)).
Proof.
  split; [reflexivity|]. split; [apply reachable_border_style|]. split.
  - intros inputs Hv. apply (reachable_border_style lim).
    apply reachable_run; [apply reachable_initial|exact Hv].
  - intros g [gpio events now|vrx vry] Hne; cbn [step] in *.
    + destruct (gpio_callback_cases gpio events now g)
        as [[_ E]|[[Ha [-> E]]|[_ [_ E]]]].
      * unfold exec in Hne. rewrite E in Hne. cbn in Hne. congruence.
      * exists events, now. repeat split; assumption.
      * congruence.
    + rewrite loop_body_exec in Hne. cbn in Hne. congruence.
Qed.

Lemma border_style_stays_legal_witness :
  Forall valid_input [Irq SW_PIN 4 300000; Tick 0 4095; Irq SW_PIN 4 600000] /\
  border_style
    (run narrow [Irq SW_PIN 4 300000; Tick 0 4095; Irq SW_PIN 4 600000] initial)
    = 2 /\
  In (border_style
        (run narrow [Irq SW_PIN 4 300000; Tick 0 4095; Irq SW_PIN 4 600000]
             initial)) [0; 1; 2].
Proof.
  assert (Hv : Forall valid_input
                 [Irq SW_PIN 4 300000; Tick 0 4095; Irq SW_PIN 4 600000]).
  { repeat constructor; cbn; unfold SW_PIN, ADC_MAX; lia. }
  split; [exact Hv|]. split; [reflexivity|].
  destruct (border_style_stays_legal narrow) as [_ [_ [Hrun _]]].
  apply Hrun. exact Hv.
Defined.

(** * Further properties of the program *)

(** ** Traces *)

Lemma u16_range (z : Z) : 0 <= u16 z <= PWM_MAX.
Proof.
  unfold u16, wrap, PWM_MAX.
  pose proof (Z.mod_pos_bound z (2 ^ 16) ltac:(lia)). lia.
Qed.

Lemma blue_pwm_range (r : Z) : 0 <= blue_pwm r <= PWM_MAX.
Proof.
  unfold blue_pwm. destruct (150 <? Z.abs (r - JOYSTICK_CENTER)).
  - apply u16_range.
  - unfold PWM_MAX. lia.
Qed.

Lemma red_pwm_range (r : Z) : 0 <= red_pwm r <= PWM_MAX.
Proof.
  unfold red_pwm. destruct (150 <? Z.abs (r - JOYSTICK_CENTER)).
  - apply u16_range.
  - unfold PWM_MAX. lia.
Qed.

(** The whole I/O of one loop iteration. *)
Lemma loop_body_trace (lim : limits) (vrx_value vry_value : Z) (g : globals) :
  trace (loop_body lim vrx_value vry_value) g =
  [AdcSelectInput 0; AdcSelectInput 1;
   PwmSetGpioLevel LED_R_PIN (if pwm_enabled g then red_pwm vry_value else 0);
   PwmSetGpioLevel LED_B_PIN (if pwm_enabled g then blue_pwm vrx_value else 0);
   Ssd1306Fill false;
   Ssd1306Rect
     (28 - Z.quot ((vrx_value - JOYSTICK_CENTER) * limit_y lim) ADC_MAX)
     (60 + Z.quot ((vry_value - JOYSTICK_CENTER) * limit_x lim) ADC_MAX)
     8 8 true true]
  ++ trace (draw_border (border_style g)) g
  ++ [Ssd1306SendData; SleepMs 20].
Proof.
  unfold loop_body, trace, bind, set_pwm_duty, get, emit, modify. cbn.
  border_cases g.
Qed.

(** What [draw_border] emits, style by style. *)
Lemma draw_border_trace (style : Z) (g : globals) :
  trace (draw_border style) g =
  if style =? 0 then [Ssd1306Rect 0 0 WIDTH HEIGHT true false]
  else if style =? 1 then
    [Ssd1306Rect 0 0 WIDTH HEIGHT true false;
     Ssd1306Rect 2 2 (WIDTH - 4) (HEIGHT - 4) true false]
  else if style =? 2 then
    [Ssd1306Hline 0 10 0 true;
     Ssd1306Hline (WIDTH - 10) (WIDTH - 1) 0 true;
     Ssd1306Hline 0 10 (HEIGHT - 1) true;
     Ssd1306Hline (WIDTH - 10) (WIDTH - 1) (HEIGHT - 1) true;
     Ssd1306Vline 0 0 10 true;
     Ssd1306Vline 0 (HEIGHT - 10) (HEIGHT - 1) true;
     Ssd1306Vline (WIDTH - 1) 0 10 true;
     Ssd1306Vline (WIDTH - 1) (HEIGHT - 10) (HEIGHT - 1) true]
  else [].
Proof.
  unfold draw_border, trace.
  destruct (style =? 0); [reflexivity|].
  destruct (style =? 1); [reflexivity|].
  destruct (style =? 2); reflexivity.
Qed.

Lemma draw_border_on_display (style : Z) (g : globals) :
  forallb on_display (trace (draw_border style) g) = true.
Proof.
  rewrite draw_border_trace.
  destruct (style =? 0); [reflexivity|].
  destruct (style =? 1); [reflexivity|].
  destruct (style =? 2); reflexivity.
Qed.

Lemma draw_border_only_draws (style : Z) (g : globals) (e : io_event) :
  In e (trace (draw_border style) g) ->
  match e with
  | Ssd1306Rect _ _ _ _ _ _ | Ssd1306Hline _ _ _ _ | Ssd1306Vline _ _ _ _ => True
  | _ => False
  end.
Proof.
  rewrite draw_border_trace.
  destruct (style =? 0); [|destruct (style =? 1); [|destruct (style =? 2)]];
    cbn; intros H;
    repeat (destruct H as [<-|H]; [exact I|]); destruct H.
Qed.

Lemma gpio_puts_app (pin : Z) (t1 t2 : list io_event) :
  gpio_puts pin (t1 ++ t2) = gpio_puts pin t1 ++ gpio_puts pin t2.
Proof.
  induction t1 as [|e t1 IH]; [reflexivity|].
  destruct e; cbn [app gpio_puts]; try exact IH.
  destruct (pin0 =? pin); cbn [app]; [f_equal|]; exact IH.
Qed.

Lemma draw_border_no_gpio_put (pin style : Z) (g : globals) :
  gpio_puts pin (trace (draw_border style) g) = [].
Proof.
  rewrite draw_border_trace.
  destruct (style =? 0); [reflexivity|].
  destruct (style =? 1); [reflexivity|].
  destruct (style =? 2); reflexivity.
Qed.

Lemma loop_body_no_gpio_put (pin : Z) (lim : limits) (vrx vry : Z) (g : globals) :
  gpio_puts pin (trace (loop_body lim vrx vry) g) = [].
Proof.
  rewrite loop_body_trace, !gpio_puts_app, draw_border_no_gpio_put.
  reflexivity.
Qed.

Lemma last_cons_default {A : Type} (a : A) (l : list A) (d : A) :
  last (a :: l) d = last l a.
Proof.
  revert a d. induction l as [|b l IH]; intros a d; [reflexivity|].
  change (last (b :: l) d = last (b :: l) a). rewrite !IH. reflexivity.
Qed.

Lemma last_app_default {A : Type} (l1 l2 : list A) (d : A) :
  last (l1 ++ l2) d = last l2 (last l1 d).
Proof.
  revert d. induction l1 as [|a l1 IH]; intros d; [reflexivity|].
  cbn [app]. rewrite !last_cons_default. apply IH.
Qed.

(** ** PWM levels *)

(** X1.  Whatever the samples and the state, the only PWM levels a loop
    iteration writes are for the red and the blue pin, and each is between
    0 and the wrap value that [init_pwm] programs for the pin's slice
    (65535): the duty never exceeds the period. *)
Theorem pwm_level_never_exceeds_wrap
  (pwm_gpio_to_slice_num : Z -> Z) (lim : limits) (g : globals)
  (vrx_value vry_value pin level : Z) :
  In (PwmSetGpioLevel pin level) (trace (loop_body lim vrx_value vry_value) g) ->
  (pin = LED_R_PIN \/ pin = LED_B_PIN) /\
  0 <= level /\
  (forall w,
     In (PwmSetWrap (pwm_gpio_to_slice_num pin) w)
        (init_pwm pwm_gpio_to_slice_num pin) ->
     level <= w).
Proof.
  rewrite loop_body_trace. intros H.
  assert (Hw : forall w,
             In (PwmSetWrap (pwm_gpio_to_slice_num pin) w)
                (init_pwm pwm_gpio_to_slice_num pin) -> w = PWM_MAX).
  { unfold init_pwm. cbn. intros w [E|[E|[E|[]]]]; congruence. }
  assert (Hlev : forall (b : bool) d, 0 <= d <= PWM_MAX ->
                   0 <= (if b then d else 0) <= PWM_MAX)
    by (intros [] d Hd; unfold PWM_MAX in *; lia).
  pose proof (Hlev (pwm_enabled g) _ (red_pwm_range vry_value)) as Hr.
  pose proof (Hlev (pwm_enabled g) _ (blue_pwm_range vrx_value)) as Hb.
  apply in_app_or in H. destruct H as [H|H].
  - cbn in H. destruct H as [E|[E|[E|[E|[E|[E|[]]]]]]]; try discriminate E;
      injection E as <- <-.
    + split; [left; reflexivity|]. split; [lia|].
      intros w Hin. rewrite (Hw w Hin). lia.
    + split; [right; reflexivity|]. split; [lia|].
      intros w Hin. rewrite (Hw w Hin). lia.
  - apply in_app_or in H. destruct H as [H|H].
    + apply draw_border_only_draws in H. destruct H.
    + cbn in H. destruct H as [E|[E|[]]]; discriminate E.
Qed.

Lemma pwm_level_never_exceeds_wrap_witness :
  In (PwmSetGpioLevel LED_B_PIN 65504) (trace (loop_body wide 4095 2048) initial)
  /\ 65504 <= PWM_MAX.
Proof.
  assert (Hin : In (PwmSetGpioLevel LED_B_PIN 65504)
                   (trace (loop_body wide 4095 2048) initial))
    by (cbn; tauto).
  split; [exact Hin|].
  destruct (pwm_level_never_exceeds_wrap (fun gpio => Z.land (Z.shiftr gpio 1) 7)
              wide initial 4095 2048 LED_B_PIN 65504 Hin) as [_ [_ Hw]].
  apply Hw. cbn. tauto.
Defined.

(** X2.  For samples in 0..4095 each of the two levels written in a loop
    iteration is a multiple of 32 and is either 0 or at least 151 * 32 =
    4832 and at most 2047 * 32 = 65504: no level strictly between 0 and
    4832 is ever driven. *)
Theorem pwm_level_is_zero_or_above_deadzone
  (lim : limits) (g : globals) (vrx_value vry_value : Z) :
  0 <= vrx_value <= ADC_MAX -> 0 <= vry_value <= ADC_MAX ->
  exists blue red,
    pwm_levels LED_B_PIN (trace (loop_body lim vrx_value vry_value) g) = [blue] /\
    pwm_levels LED_R_PIN (trace (loop_body lim vrx_value vry_value) g) = [red] /\
    (blue = 0 \/ 4832 <= blue <= 65504) /\ blue mod 32 = 0 /\
    (red = 0 \/ 4832 <= red <= 65504) /\ red mod 32 = 0.
Proof.
  intros Hx Hy. rewrite loop_body_blue_level, loop_body_red_level.
  eexists; eexists. split; [reflexivity|]. split; [reflexivity|].
  assert (Hb : (blue_pwm vrx_value = 0 \/ 4832 <= blue_pwm vrx_value <= 65504)
               /\ blue_pwm vrx_value mod 32 = 0).
  { destruct (Z.eq_dec vrx_value 0) as [->|Hn]; [split; [left|]; reflexivity|].
    destruct (Z_le_gt_dec (Z.abs (vrx_value - JOYSTICK_CENTER)) 150) as [Hd|Hd].
    - rewrite blue_pwm_deadzone by exact Hd. split; [left|]; reflexivity.
    - rewrite blue_pwm_scaled by (unfold ADC_MAX in *; lia).
      split; [right; unfold ADC_MAX, JOYSTICK_CENTER in *; lia|].
      apply Z.mod_mul. lia. }
  assert (Hr : (red_pwm vry_value = 0 \/ 4832 <= red_pwm vry_value <= 65504)
               /\ red_pwm vry_value mod 32 = 0).
  { destruct (Z.eq_dec vry_value 0) as [->|Hn]; [split; [left|]; reflexivity|].
    destruct (Z_le_gt_dec (Z.abs (vry_value - JOYSTICK_CENTER)) 150) as [Hd|Hd].
    - rewrite red_pwm_deadzone by exact Hd. split; [left|]; reflexivity.
    - rewrite red_pwm_scaled by (unfold ADC_MAX in *; lia).
      split; [right; unfold ADC_MAX, JOYSTICK_CENTER in *; lia|].
      apply Z.mod_mul. lia. }
  destruct (pwm_enabled g).
  - tauto.
  - repeat split; try (left; reflexivity).
Qed.

Lemma pwm_level_is_zero_or_above_deadzone_witness :
  0 <= 2199 <= ADC_MAX /\ 0 <= 2198 <= ADC_MAX /\
  exists blue red,
    pwm_levels LED_B_PIN (trace (loop_body wide 2199 2198) initial) = [blue] /\
    pwm_levels LED_R_PIN (trace (loop_body wide 2199 2198) initial) = [red] /\
    (blue = 0 \/ 4832 <= blue <= 65504) /\ blue mod 32 = 0 /\
    (red = 0 \/ 4832 <= red <= 65504) /\ red mod 32 = 0.
Proof.
  split; [unfold ADC_MAX; lia|]. split; [unfold ADC_MAX; lia|].
  apply (pwm_level_is_zero_or_above_deadzone wide initial 2199 2198);
    unfold ADC_MAX; lia.
Defined.

(** X3.  The level driven for an axis depends only on the distance of the
    raw value from 2048, not on its side: raw values 2048 + d and 2048 - d
    drive the same level, on either channel. *)
Theorem pwm_level_symmetric_about_centre
  (lim : limits) (g : globals) (d other : Z) :
  pwm_levels LED_B_PIN (trace (loop_body lim (JOYSTICK_CENTER + d) other) g) =
  pwm_levels LED_B_PIN (trace (loop_body lim (JOYSTICK_CENTER - d) other) g)
  /\
  pwm_levels LED_R_PIN (trace (loop_body lim other (JOYSTICK_CENTER + d)) g) =
  pwm_levels LED_R_PIN (trace (loop_body lim other (JOYSTICK_CENTER - d)) g).
Proof.
  rewrite !loop_body_blue_level, !loop_body_red_level.
  unfold blue_pwm, red_pwm.
  replace (Z.abs (JOYSTICK_CENTER + d - JOYSTICK_CENTER))
    with (Z.abs (JOYSTICK_CENTER - d - JOYSTICK_CENTER)) by lia.
  split; reflexivity.
Qed.

(** X4.  For raw values in 1..4095 the level grows with the deflection:
    a raw value at least as far from 2048 drives at least as high a level,
    on either channel and whether or not the PWM is enabled.  (Raw value 0
    is excluded: see C10.) *)
Theorem pwm_level_monotone_in_deflection
  (lim : limits) (g : globals) (r1 r2 other : Z) :
  1 <= r1 <= ADC_MAX -> 1 <= r2 <= ADC_MAX ->
  Z.abs (r1 - JOYSTICK_CENTER) <= Z.abs (r2 - JOYSTICK_CENTER) ->
  exists b1 b2 q1 q2,
    pwm_levels LED_B_PIN (trace (loop_body lim r1 other) g) = [b1] /\
    pwm_levels LED_B_PIN (trace (loop_body lim r2 other) g) = [b2] /\
    b1 <= b2 /\
    pwm_levels LED_R_PIN (trace (loop_body lim other r1) g) = [q1] /\
    pwm_levels LED_R_PIN (trace (loop_body lim other r2) g) = [q2] /\
    q1 <= q2.
Proof.
  intros H1 H2 Hd. rewrite !loop_body_blue_level, !loop_body_red_level.
  do 4 eexists.
  split; [reflexivity|]. split; [reflexivity|].
  split; [|split; [reflexivity|split; [reflexivity|]]].
  - destruct (pwm_enabled g); [|lia].
    destruct (Z_le_gt_dec (Z.abs (r1 - JOYSTICK_CENTER)) 150) as [D1|D1];
      destruct (Z_le_gt_dec (Z.abs (r2 - JOYSTICK_CENTER)) 150) as [D2|D2];
      try rewrite (blue_pwm_deadzone r1) by exact D1;
      try rewrite (blue_pwm_deadzone r2) by exact D2;
      try rewrite (blue_pwm_scaled r1) by lia;
      try rewrite (blue_pwm_scaled r2) by lia;
      lia.
  - destruct (pwm_enabled g); [|lia].
    destruct (Z_le_gt_dec (Z.abs (r1 - JOYSTICK_CENTER)) 150) as [D1|D1];
      destruct (Z_le_gt_dec (Z.abs (r2 - JOYSTICK_CENTER)) 150) as [D2|D2];
      try rewrite (red_pwm_deadzone r1) by exact D1;
      try rewrite (red_pwm_deadzone r2) by exact D2;
      try rewrite (red_pwm_scaled r1) by lia;
      try rewrite (red_pwm_scaled r2) by lia;
      lia.
Qed.

Lemma pwm_level_monotone_in_deflection_witness :
  1 <= 1800 <= ADC_MAX /\ 1 <= 4000 <= ADC_MAX /\
  Z.abs (1800 - JOYSTICK_CENTER) <= Z.abs (4000 - JOYSTICK_CENTER) /\
  exists b1 b2 q1 q2,
    pwm_levels LED_B_PIN (trace (loop_body wide 1800 2048) initial) = [b1] /\
    pwm_levels LED_B_PIN (trace (loop_body wide 4000 2048) initial) = [b2] /\
    b1 <= b2 /\
    pwm_levels LED_R_PIN (trace (loop_body wide 2048 1800) initial) = [q1] /\
    pwm_levels LED_R_PIN (trace (loop_body wide 2048 4000) initial) = [q2] /\
    q1 <= q2.
Proof.
  split; [unfold ADC_MAX; lia|]. split; [unfold ADC_MAX; lia|].
  split; [unfold JOYSTICK_CENTER; lia|].
  apply (pwm_level_monotone_in_deflection wide initial 1800 4000 2048);
    unfold ADC_MAX, JOYSTICK_CENTER; lia.
Defined.

(** ** Marker position, continued *)

(** X5.  The exact travel of the marker for samples in 0..4095: with the
    limits 114/50, [square_x] ranges over 3..116 and [square_y] over 4..53;
    with the limits 52/24, over 34..85 and 17..40.  The ends are reached at
    raw values 0 and 4095, so the displacement is one pixel larger on the
    low-raw side (57 against 56, 25 against 24, 26 against 25, 12 against
    11). *)
Theorem marker_travel_is_exact (g : globals) (vrx_value vry_value : Z) :
  0 <= vrx_value <= ADC_MAX -> 0 <= vry_value <= ADC_MAX ->
  (3 <= square_x (exec (loop_body wide vrx_value vry_value) g) <= 116 /\
   4 <= square_y (exec (loop_body wide vrx_value vry_value) g) <= 53 /\
   34 <= square_x (exec (loop_body narrow vrx_value vry_value) g) <= 85 /\
   17 <= square_y (exec (loop_body narrow vrx_value vry_value) g) <= 40)
  /\
  (square_x (exec (loop_body wide vrx_value 0) g) = 3 /\
   square_x (exec (loop_body wide vrx_value 4095) g) = 116 /\
   square_y (exec (loop_body wide 4095 vry_value) g) = 4 /\
   square_y (exec (loop_body wide 0 vry_value) g) = 53 /\
   square_x (exec (loop_body narrow vrx_value 0) g) = 34 /\
   square_x (exec (loop_body narrow vrx_value 4095) g) = 85 /\
   square_y (exec (loop_body narrow 4095 vry_value) g) = 17 /\
   square_y (exec (loop_body narrow 0 vry_value) g) = 40).
Proof.
  intros Hx Hy. rewrite !loop_body_exec.
  cbn [square_x square_y set_square_x set_square_y limit_x limit_y wide narrow].
  unfold JOYSTICK_CENTER, ADC_MAX in *.
  split; [|repeat split].
  repeat split; Z.to_euclidean_division_equations; lia.
Qed.

Lemma marker_travel_is_exact_witness :
  0 <= 1000 <= ADC_MAX /\ 0 <= 3000 <= ADC_MAX /\
  3 <= square_x (exec (loop_body wide 1000 3000) initial) <= 116 /\
  square_x (exec (loop_body wide 1000 0) initial) = 3.
Proof.
  split; [unfold ADC_MAX; lia|]. split; [unfold ADC_MAX; lia|].
  destruct (marker_travel_is_exact initial 1000 3000)
    as [[Hr _] [He _]]; [unfold ADC_MAX; lia|unfold ADC_MAX; lia|].
  split; [exact Hr|exact He].
Defined.

(** X6.  Because the division truncates toward zero, the marker rests at
    its offset on a band of raw values around 2048: for positive limits,
    [square_x] is 60 exactly when |vry - 2048| * limit_x < 4095 and
    [square_y] is 28 exactly when |vrx - 2048| * limit_y < 4095 (up to 35
    and 81 counts from the centre with limits 114/50, up to 78 and 170 with
    52/24). *)
Theorem marker_rests_at_offset_near_centre
  (lim : limits) (g : globals) (vrx_value vry_value : Z) :
  0 < limit_x lim -> 0 < limit_y lim ->
  (square_x (exec (loop_body lim vrx_value vry_value) g) = 60 <->
   Z.abs (vry_value - JOYSTICK_CENTER) * limit_x lim < ADC_MAX)
  /\
  (square_y (exec (loop_body lim vrx_value vry_value) g) = 28 <->
   Z.abs (vrx_value - JOYSTICK_CENTER) * limit_y lim < ADC_MAX).
Proof.
  intros Hlx Hly. rewrite loop_body_exec.
  cbn [square_x square_y set_square_x set_square_y].
  assert (Hq : forall a l, 0 < l ->
             (Z.quot (a * l) ADC_MAX = 0 <-> Z.abs a * l < ADC_MAX)).
  { intros a l Hl. unfold ADC_MAX.
    rewrite <- (Z.abs_eq l) at 2 by lia. rewrite <- Z.abs_mul.
    generalize (a * l). intros z.
    split; intros H; Z.to_euclidean_division_equations; lia. }
  pose proof (Hq (vry_value - JOYSTICK_CENTER) (limit_x lim) Hlx).
  pose proof (Hq (vrx_value - JOYSTICK_CENTER) (limit_y lim) Hly).
  split; split; intros; lia.
Qed.

Lemma marker_rests_at_offset_near_centre_witness :
  0 < limit_x wide /\ 0 < limit_y wide /\
  square_x (exec (loop_body wide 2129 2083) initial) = 60 /\
  square_y (exec (loop_body wide 2129 2083) initial) = 28 /\
  ~ square_x (exec (loop_body wide 2129 2084) initial) = 60.
Proof.
  split; [reflexivity|]. split; [reflexivity|].
  destruct (marker_rests_at_offset_near_centre wide initial 2129 2083)
    as [[_ Hx] [_ Hy]]; [reflexivity|reflexivity|].
  split; [apply Hx; reflexivity|]. split; [apply Hy; reflexivity|].
  destruct (marker_rests_at_offset_near_centre wide initial 2129 2084)
    as [[Hx' _] _]; [reflexivity|reflexivity|].
  intros E. apply Hx' in E. vm_compute in E. discriminate E.
Defined.

(** X7.  The marker moves without jumps: raising a raw value in 0..4094 by
    one count changes the coordinate it drives by at most one pixel
    ([square_x] stays or goes up by one, [square_y] stays or goes down by
    one), in both variants. *)
Theorem marker_moves_one_pixel_at_a_time
  (lim : limits) (g : globals) (r other : Z) :
  In lim [wide; narrow] -> 0 <= r -> r < ADC_MAX ->
  0 <= square_x (exec (loop_body lim other (r + 1)) g)
       - square_x (exec (loop_body lim other r) g) <= 1
  /\
  0 <= square_y (exec (loop_body lim r other) g)
       - square_y (exec (loop_body lim (r + 1) other) g) <= 1.
Proof.
  intros Hlim H0 Hmax. rewrite !loop_body_exec.
  cbn [square_x square_y set_square_x set_square_y].
  unfold JOYSTICK_CENTER, ADC_MAX in *.
  destruct Hlim as [<-|[<-|[]]]; cbn [limit_x limit_y wide narrow];
    split; Z.to_euclidean_division_equations; lia.
Qed.

Lemma marker_moves_one_pixel_at_a_time_witness :
  In wide [wide; narrow] /\ 0 <= 2083 /\ 2083 < ADC_MAX /\
  0 <= square_x (exec (loop_body wide 2048 (2083 + 1)) initial)
       - square_x (exec (loop_body wide 2048 2083) initial) <= 1.
Proof.
  split; [left; reflexivity|]. split; [lia|]. split; [unfold ADC_MAX; lia|].
  destruct (marker_moves_one_pixel_at_a_time wide initial 2083 2048)
    as [Hx _]; [left; reflexivity|lia|unfold ADC_MAX; lia|].
  exact Hx.
Defined.

(** X8.  A loop iteration writes only the marker position: the four
    variables owned by the handler keep their values.  The position it
    leaves depends on the samples of that iteration alone, so an earlier
    iteration leaves no trace in the globals. *)
Theorem loop_body_writes_only_the_marker
  (lim : limits) (g : globals) (vrx1 vry1 vrx2 vry2 : Z) :
  led_green_state (exec (loop_body lim vrx1 vry1) g) = led_green_state g /\
  pwm_enabled (exec (loop_body lim vrx1 vry1) g) = pwm_enabled g /\
  border_style (exec (loop_body lim vrx1 vry1) g) = border_style g /\
  last_interrupt_time (exec (loop_body lim vrx1 vry1) g)
    = last_interrupt_time g /\
  exec (loop_body lim vrx2 vry2) (exec (loop_body lim vrx1 vry1) g)
    = exec (loop_body lim vrx2 vry2) g.
Proof.
  rewrite !loop_body_exec. repeat split.
Qed.

(** ** Handler and loop together *)

Lemma elapsed_same_timestamp (g1 g2 : globals) (now : Z) :
  last_interrupt_time g1 = last_interrupt_time g2 ->
  elapsed g1 now = elapsed g2 now.
Proof. intros E. unfold elapsed. rewrite E. reflexivity. Qed.

(** The handler never touches the marker position. *)
Lemma gpio_callback_keeps_marker (gpio events now : Z) (g : globals) :
  square_x (exec (gpio_callback gpio events now) g) = square_x g /\
  square_y (exec (gpio_callback gpio events now) g) = square_y g.
Proof.
  unfold gpio_callback, exec, bind, get.
  destruct (200000 <? elapsed g now); [|split; reflexivity].
  destruct (gpio =? SW_PIN); [split; reflexivity|].
  destruct (gpio =? BUTTON_A_PIN); split; reflexivity.
Qed.

(** X9.  The handler and a loop iteration write disjoint variables: the
    globals after an interrupt followed by an iteration are those after the
    iteration followed by the interrupt. *)
Theorem handler_and_iteration_commute
  (lim : limits) (g : globals) (gpio events now vrx_value vry_value : Z) :
  exec (loop_body lim vrx_value vry_value)
       (exec (gpio_callback gpio events now) g)
  = exec (gpio_callback gpio events now)
         (exec (loop_body lim vrx_value vry_value) g).
Proof.
  rewrite !loop_body_exec.
  unfold gpio_callback, exec, bind, get, elapsed.
  cbn [last_interrupt_time set_square_x set_square_y].
  destruct (200000 <? u32 (now - last_interrupt_time g)); [|reflexivity].
  destruct (gpio =? SW_PIN); [reflexivity|].
  destruct (gpio =? BUTTON_A_PIN); reflexivity.
Qed.

Lemma within_window_step (lim : limits) (g0 g : globals) (i : input) :
  last_interrupt_time g = last_interrupt_time g0 ->
  within_window g0 i ->
  led_green_state (exec (step lim i) g) = led_green_state g /\
  pwm_enabled (exec (step lim i) g) = pwm_enabled g /\
  border_style (exec (step lim i) g) = border_style g /\
  last_interrupt_time (exec (step lim i) g) = last_interrupt_time g /\
  gpio_puts LED_G_PIN (trace (step lim i) g) = [].
Proof.
  intros El Hw. destruct i as [gpio events now|vrx vry]; cbn [step].
  - cbn [within_window] in Hw.
    rewrite <- (elapsed_same_timestamp g g0 now El) in Hw.
    unfold exec, trace. rewrite gpio_callback_discarded by exact Hw.
    repeat split.
  - rewrite loop_body_exec, loop_body_no_gpio_put. repeat split.
Qed.

(** X10.  The debounce window is anchored at the last accepted edge and is
    not extended by discarded ones: a run of any length made of loop
    iterations and of edges, on whichever pins, that all come at most
    200000 microseconds after the last accepted timestamp leaves the green
    LED state, [pwm_enabled], the border style and the timestamp as they
    were, and writes nothing to the LED pin. *)
Theorem bounces_within_window_are_all_discarded
  (lim : limits) (inputs : list input) (g : globals) :
  Forall (within_window g) inputs ->
  led_green_state (run lim inputs g) = led_green_state g /\
  pwm_enabled (run lim inputs g) = pwm_enabled g /\
  border_style (run lim inputs g) = border_style g /\
  last_interrupt_time (run lim inputs g) = last_interrupt_time g /\
  gpio_puts LED_G_PIN (run_trace lim inputs g) = [].
Proof.
  intros Hw.
  enough (Hgen : forall g', last_interrupt_time g' = last_interrupt_time g ->
            led_green_state (run lim inputs g') = led_green_state g' /\
            pwm_enabled (run lim inputs g') = pwm_enabled g' /\
            border_style (run lim inputs g') = border_style g' /\
            last_interrupt_time (run lim inputs g') = last_interrupt_time g' /\
            gpio_puts LED_G_PIN (run_trace lim inputs g') = [])
    by (apply Hgen; reflexivity).
  induction Hw as [|i rest Hi Hrest IH]; intros g' El; cbn [run run_trace].
  - repeat split.
  - destruct (within_window_step lim g g' i El Hi) as [E1 [E2 [E3 [E4 E5]]]].
    destruct (IH (exec (step lim i) g')) as [F1 [F2 [F3 [F4 F5]]]];
      [congruence|].
    rewrite gpio_puts_app, E5, F5. repeat split; congruence.
Qed.

Lemma bounces_within_window_are_all_discarded_witness :
  Forall (within_window
            (run wide [Irq SW_PIN 4 1000000] initial))
         [Irq SW_PIN 4 1000100; Irq BUTTON_A_PIN 4 1100000; Tick 0 0;
          Irq BUTTON_A_PIN 4 1200000] /\
  pwm_enabled
    (run wide [Irq SW_PIN 4 1000100; Irq BUTTON_A_PIN 4 1100000; Tick 0 0;
               Irq BUTTON_A_PIN 4 1200000]
         (run wide [Irq SW_PIN 4 1000000] initial)) = true /\
  border_style
    (run wide [Irq SW_PIN 4 1000100; Irq BUTTON_A_PIN 4 1100000; Tick 0 0;
               Irq BUTTON_A_PIN 4 1200000]
         (run wide [Irq SW_PIN 4 1000000] initial)) = 1.
Proof.
  assert (Hw : Forall (within_window (run wide [Irq SW_PIN 4 1000000] initial))
                 [Irq SW_PIN 4 1000100; Irq BUTTON_A_PIN 4 1100000; Tick 0 0;
                  Irq BUTTON_A_PIN 4 1200000]).
  { repeat constructor; vm_compute; discriminate. }
  split; [exact Hw|].
  destruct (bounces_within_window_are_all_discarded wide _ _ Hw)
    as [_ [Hp [Hb _]]].
  split; [exact Hp|exact Hb].
Defined.

(** ** Accepted presses decide the state *)

(** What one step does to the handler's variables and to the LED pin, in
    terms of whether it is an accepted edge on either button. *)
Lemma step_counts (lim : limits) (g : globals) (i : input) :
  In (border_style g) [0; 1; 2] ->
  border_style (exec (step lim i) g)
    = (border_style g + (if passes_debounce SW_PIN g i then 1 else 0)) mod 3 /\
  led_green_state (exec (step lim i) g)
    = xorb (led_green_state g) (passes_debounce SW_PIN g i) /\
  pwm_enabled (exec (step lim i) g)
    = xorb (pwm_enabled g) (passes_debounce BUTTON_A_PIN g i) /\
  gpio_puts LED_G_PIN (trace (step lim i) g)
    = (if passes_debounce SW_PIN g i
       then [negb (led_green_state g)] else []) /\
  (forall pin v, In (GpioPut pin v) (trace (step lim i) g) -> pin = LED_G_PIN).
Proof.
  intros Hb.
  assert (Hsame : border_style g = (border_style g + 0) mod 3)
    by (cbn in Hb; rewrite Z.add_0_r, Z.mod_small; lia).
  destruct i as [gpio events now|vrx vry]; cbn [step passes_debounce].
  - destruct (Z_le_gt_dec (elapsed g now) 200000) as [Hd|Ha].
    + assert (E : (200000 <? elapsed g now) = false) by (apply Z.ltb_ge; exact Hd).
      rewrite E, !andb_false_r, !xorb_false_r.
      unfold exec, trace. rewrite gpio_callback_discarded by exact Hd.
      repeat split; try assumption. intros pin v [].
    + apply Z.gt_lt in Ha.
      assert (E : (200000 <? elapsed g now) = true) by (apply Z.ltb_lt; exact Ha).
      rewrite E, !andb_true_r.
      destruct (Z.eq_dec gpio SW_PIN) as [->|Hs];
        [|destruct (Z.eq_dec gpio BUTTON_A_PIN) as [->|Ha']].
      * unfold exec, trace. rewrite gpio_callback_sw by exact Ha.
        cbn [fst snd border_style led_green_state pwm_enabled].
        rewrite next_style_mod3 by exact Hb.
        change (SW_PIN =? SW_PIN) with true.
        change (SW_PIN =? BUTTON_A_PIN) with false.
        rewrite xorb_true_r, xorb_false_r.
        repeat split. intros pin v [E'|[]]. congruence.
      * unfold exec, trace. rewrite gpio_callback_button_a by exact Ha.
        cbn [fst snd border_style led_green_state pwm_enabled].
        change (BUTTON_A_PIN =? SW_PIN) with false.
        change (BUTTON_A_PIN =? BUTTON_A_PIN) with true.
        rewrite xorb_true_r, xorb_false_r.
        repeat split; try assumption. intros pin v [].
      * unfold exec, trace. rewrite gpio_callback_other_pin by assumption.
        apply Z.eqb_neq in Hs. apply Z.eqb_neq in Ha'. rewrite Hs, Ha'.
        rewrite !xorb_false_r.
        repeat split; try assumption. intros pin v [].
  - rewrite loop_body_exec, loop_body_no_gpio_put, !xorb_false_r.
    repeat split; try assumption.
    intros pin v Hin. rewrite loop_body_trace in Hin.
    apply in_app_or in Hin. destruct Hin as [Hin|Hin].
    + cbn in Hin. repeat (destruct Hin as [Hin|Hin]; [discriminate Hin|]).
      destruct Hin.
    + apply in_app_or in Hin. destruct Hin as [Hin|Hin].
      * apply draw_border_only_draws in Hin. destruct Hin.
      * cbn in Hin. repeat (destruct Hin as [Hin|Hin]; [discriminate Hin|]).
        destruct Hin.
Qed.

Lemma accepted_edges_nonneg (pin : Z) (lim : limits) (inputs : list input) :
  forall g, 0 <= accepted_edges pin lim inputs g.
Proof.
  induction inputs as [|i rest IH]; intros g; cbn [accepted_edges]; [lia|].
  specialize (IH (exec (step lim i) g)).
  destruct (passes_debounce pin g i); lia.
Qed.

Lemma odd_of_flag (b : bool) (n : Z) :
  Z.odd ((if b then 1 else 0) + n) = xorb b (Z.odd n).
Proof. rewrite Z.odd_add. destruct b; reflexivity. Qed.

Lemma run_counts (lim : limits) (inputs : list input) :
  forall g, In (border_style g) [0; 1; 2] ->
  border_style (run lim inputs g)
    = (border_style g + accepted_edges SW_PIN lim inputs g) mod 3 /\
  led_green_state (run lim inputs g)
    = xorb (led_green_state g) (Z.odd (accepted_edges SW_PIN lim inputs g)) /\
  pwm_enabled (run lim inputs g)
    = xorb (pwm_enabled g)
           (Z.odd (accepted_edges BUTTON_A_PIN lim inputs g)) /\
  Z.of_nat (length (gpio_puts LED_G_PIN (run_trace lim inputs g)))
    = accepted_edges SW_PIN lim inputs g /\
  last (gpio_puts LED_G_PIN (run_trace lim inputs g)) (led_green_state g)
    = led_green_state (run lim inputs g) /\
  (forall pin v,
     In (GpioPut pin v) (run_trace lim inputs g) -> pin = LED_G_PIN).
Proof.
  induction inputs as [|i rest IH]; intros g Hb;
    cbn [run run_trace accepted_edges].
  - cbn in Hb. rewrite Z.add_0_r, Z.mod_small by lia.
    cbn. rewrite !xorb_false_r. repeat split. intros pin v [].
  - destruct (step_counts lim g i Hb) as [S1 [S2 [S3 [S4 S5]]]].
    assert (Hb' : In (border_style (exec (step lim i) g)) [0; 1; 2])
      by (apply step_border_style_legal; exact Hb).
    destruct (IH _ Hb') as [I1 [I2 [I3 [I4 [I5 I6]]]]].
    rewrite !odd_of_flag, gpio_puts_app, length_app, last_app_default.
    rewrite I1, I2, I3, S1, S2, S3, Nat2Z.inj_add, I4, S4.
    split; [rewrite Zplus_mod_idemp_l, Z.add_assoc; reflexivity|].
    split; [rewrite xorb_assoc; reflexivity|].
    split; [rewrite xorb_assoc; reflexivity|].
    split; [destruct (passes_debounce SW_PIN g i); reflexivity|].
    split.
    + replace (last (if passes_debounce SW_PIN g i
                     then [negb (led_green_state g)] else [])
                    (led_green_state g))
        with (led_green_state (exec (step lim i) g)).
      * rewrite I5, I2, S2. reflexivity.
      * rewrite S2. destruct (passes_debounce SW_PIN g i); cbn [last];
          [rewrite xorb_true_r|rewrite xorb_false_r]; reflexivity.
    + intros pin v Hin. apply in_app_or in Hin.
      destruct Hin as [Hin|Hin]; [exact (S5 pin v Hin)|exact (I6 pin v Hin)].
Qed.

(** X11.  After any run from the initial state the handler's variables are
    decided by how many edges passed the debounce test: with [s] such edges
    on the joystick button and [a] on button A, [border_style] is s mod 3,
    [led_green_state] is true exactly when s is odd, [pwm_enabled] exactly
    when a is even, and the LED pin has been written exactly s times. *)
Theorem state_is_decided_by_accepted_presses
  (lim : limits) (inputs : list input) :
  0 <= accepted_edges SW_PIN lim inputs initial /\
  0 <= accepted_edges BUTTON_A_PIN lim inputs initial /\
  border_style (run lim inputs initial)
    = accepted_edges SW_PIN lim inputs initial mod 3 /\
  led_green_state (run lim inputs initial)
    = Z.odd (accepted_edges SW_PIN lim inputs initial) /\
  pwm_enabled (run lim inputs initial)
    = Z.even (accepted_edges BUTTON_A_PIN lim inputs initial) /\
  Z.of_nat (length (gpio_puts LED_G_PIN (run_trace lim inputs initial)))
    = accepted_edges SW_PIN lim inputs initial.
Proof.
  destruct (run_counts lim inputs initial) as [H1 [H2 [H3 [H4 _]]]];
    [cbn; tauto|].
  split; [apply accepted_edges_nonneg|].
  split; [apply accepted_edges_nonneg|].
  split; [exact H1|]. split; [exact H2|].
  split; [rewrite H3, <- Z.negb_odd; reflexivity|exact H4].
Qed.

(** X12.  The green LED pin follows its variable: in any run from the
    initial state, [gpio_put] is only ever called on the green LED pin, and
    the last value written to it is the final [led_green_state], which is
    still false when nothing has been written. *)
Theorem green_led_pin_mirrors_its_variable
  (lim : limits) (inputs : list input) :
  last (gpio_puts LED_G_PIN (run_trace lim inputs initial)) false
    = led_green_state (run lim inputs initial) /\
  (forall pin v,
     In (GpioPut pin v) (run_trace lim inputs initial) -> pin = LED_G_PIN).
Proof.
  destruct (run_counts lim inputs initial) as [_ [_ [_ [_ [H5 H6]]]]];
    [cbn; tauto|].
  split; [exact H5|exact H6].
Qed.

(** ** What a frame contains *)

(** X13.  [draw_border] has no default case: a style other than 0, 1 and 2
    draws nothing at all, while the three styles draw 1, 2 and 8
    primitives.  Since the running program keeps the style legal, every
    loop iteration of a reachable state does draw a border. *)
Theorem border_is_drawn_in_every_reachable_state
  (lim : limits) (g g' : globals) (style vrx_value vry_value : Z) :
  reachable lim g ->
  (style <> 0 -> style <> 1 -> style <> 2 ->
   trace (draw_border style) g' = []) /\
  length (trace (draw_border 0) g') = 1%nat /\
  length (trace (draw_border 1) g') = 2%nat /\
  length (trace (draw_border 2) g') = 8%nat /\
  trace (draw_border (border_style g)) g <> [] /\
  exists border,
    border <> [] /\
    trace (loop_body lim vrx_value vry_value) g =
    [AdcSelectInput 0; AdcSelectInput 1;
     PwmSetGpioLevel LED_R_PIN (if pwm_enabled g then red_pwm vry_value else 0);
     PwmSetGpioLevel LED_B_PIN (if pwm_enabled g then blue_pwm vrx_value else 0);
     Ssd1306Fill false;
     Ssd1306Rect (square_y (exec (loop_body lim vrx_value vry_value) g))
                 (square_x (exec (loop_body lim vrx_value vry_value) g))
                 8 8 true true]
    ++ border ++ [Ssd1306SendData; SleepMs 20].
Proof.
  intros Hr.
  assert (Hne : trace (draw_border (border_style g)) g <> []).
  { pose proof (reachable_border_style lim g Hr) as Hb.
    rewrite draw_border_trace. cbn in Hb.
    destruct Hb as [<-|[<-|[<-|[]]]]; cbn; discriminate. }
  split.
  - intros H0 H1 H2. rewrite draw_border_trace.
    apply Z.eqb_neq in H0. apply Z.eqb_neq in H1. apply Z.eqb_neq in H2.
    rewrite H0, H1, H2. reflexivity.
  - repeat (split; [reflexivity|]). split; [exact Hne|].
    exists (trace (draw_border (border_style g)) g). split; [exact Hne|].
    rewrite loop_body_trace, loop_body_exec. reflexivity.
Qed.

Lemma border_is_drawn_in_every_reachable_state_witness :
  reachable wide initial /\
  trace (draw_border 3) initial = [] /\
  trace (draw_border (border_style initial)) initial <> [].
Proof.
  split; [apply reachable_initial|].
  destruct (border_is_drawn_in_every_reachable_state
              wide initial initial 3 0 0 (reachable_initial wide))
    as [H3 [_ [_ [_ [Hne _]]]]].
  split; [apply H3; discriminate|exact Hne].
Defined.

(** X14.  Every display primitive of a loop iteration is given coordinates
    that lie on the 128x64 display, for all samples in 0..4095, whatever
    the state (legal style or not) and in both variants: the marker, the
    frame outlines and the eight corner segments. *)
Theorem every_primitive_lies_on_the_display
  (lim : limits) (g : globals) (vrx_value vry_value : Z) :
  In lim [wide; narrow] ->
  0 <= vrx_value <= ADC_MAX -> 0 <= vry_value <= ADC_MAX ->
  forallb on_display (trace (loop_body lim vrx_value vry_value) g) = true.
Proof.
  intros Hlim Hx Hy. rewrite loop_body_trace, !forallb_app.
  rewrite draw_border_on_display.
  cbn [forallb on_display andb]. rewrite !andb_true_r.
  assert (Hm :
    0 <= 28 - Z.quot ((vrx_value - JOYSTICK_CENTER) * limit_y lim) ADC_MAX /\
    28 - Z.quot ((vrx_value - JOYSTICK_CENTER) * limit_y lim) ADC_MAX + 8
      <= HEIGHT /\
    0 <= 60 + Z.quot ((vry_value - JOYSTICK_CENTER) * limit_x lim) ADC_MAX /\
    60 + Z.quot ((vry_value - JOYSTICK_CENTER) * limit_x lim) ADC_MAX + 8
      <= WIDTH).
  { unfold JOYSTICK_CENTER, ADC_MAX, WIDTH, HEIGHT in *.
    destruct Hlim as [<-|[<-|[]]]; cbn [limit_x limit_y wide narrow];
      repeat split; Z.to_euclidean_division_equations; lia. }
  destruct Hm as [M1 [M2 [M3 M4]]].
  apply Z.leb_le in M1, M2, M3, M4. rewrite M1, M2, M3, M4. reflexivity.
Qed.

Lemma every_primitive_lies_on_the_display_witness :
  In narrow [wide; narrow] /\ 0 <= 0 <= ADC_MAX /\ 0 <= 4095 <= ADC_MAX /\
  forallb on_display (trace (loop_body narrow 0 4095) initial) = true.
Proof.
  split; [right; left; reflexivity|].
  split; [unfold ADC_MAX; lia|]. split; [unfold ADC_MAX; lia|].
  apply (every_primitive_lies_on_the_display narrow initial 0 4095);
    [right; left; reflexivity|unfold ADC_MAX; lia|unfold ADC_MAX; lia].
Defined.

(** ** Button A and the PWM outputs *)

(** The I/O of a loop iteration depends on the state only through
    [pwm_enabled] and [border_style]. *)
Lemma loop_body_trace_depends (lim : limits) (vrx vry : Z) (g1 g2 : globals) :
  pwm_enabled g1 = pwm_enabled g2 -> border_style g1 = border_style g2 ->
  trace (loop_body lim vrx vry) g1 = trace (loop_body lim vrx vry) g2.
Proof.
  intros Hp Hb. rewrite !loop_body_trace, !draw_border_trace, Hp, Hb.
  reflexivity.
Qed.

(** X15.  Starting with the PWM enabled, an accepted edge on button A makes
    the next loop iteration drive both channels at 0 whatever the samples,
    while the marker is placed as before; a second accepted edge on button
    A makes the iteration produce exactly the I/O it would have produced
    without the two presses. *)
Theorem button_a_gates_the_next_iteration
  (lim : limits) (g : globals) (e1 t1 e2 t2 vrx_value vry_value : Z) :
  pwm_enabled g = true ->
  200000 < elapsed g t1 ->
  200000 < elapsed (exec (gpio_callback BUTTON_A_PIN e1 t1) g) t2 ->
  pwm_levels LED_R_PIN
    (trace (loop_body lim vrx_value vry_value)
           (exec (gpio_callback BUTTON_A_PIN e1 t1) g)) = [0] /\
  pwm_levels LED_B_PIN
    (trace (loop_body lim vrx_value vry_value)
           (exec (gpio_callback BUTTON_A_PIN e1 t1) g)) = [0] /\
  square_x (exec (loop_body lim vrx_value vry_value)
                 (exec (gpio_callback BUTTON_A_PIN e1 t1) g))
    = square_x (exec (loop_body lim vrx_value vry_value) g) /\
  square_y (exec (loop_body lim vrx_value vry_value)
                 (exec (gpio_callback BUTTON_A_PIN e1 t1) g))
    = square_y (exec (loop_body lim vrx_value vry_value) g) /\
  trace (loop_body lim vrx_value vry_value)
        (exec (gpio_callback BUTTON_A_PIN e2 t2)
              (exec (gpio_callback BUTTON_A_PIN e1 t1) g))
    = trace (loop_body lim vrx_value vry_value) g.
Proof.
  intros He H1 H2.
  rewrite loop_body_red_level, loop_body_blue_level, !loop_body_exec.
  unfold exec in *. rewrite (gpio_callback_button_a e1 t1 g H1) in *.
  cbn [fst snd] in *. rewrite gpio_callback_button_a by exact H2.
  cbn [fst snd pwm_enabled square_x square_y set_square_x set_square_y].
  rewrite He. repeat split.
  apply loop_body_trace_depends; cbn [pwm_enabled border_style negb];
    congruence.
Qed.

Lemma button_a_gates_the_next_iteration_witness :
  pwm_enabled initial = true /\
  200000 < elapsed initial 300000 /\
  200000 < elapsed (exec (gpio_callback BUTTON_A_PIN 4 300000) initial) 600000 /\
  pwm_levels LED_B_PIN
    (trace (loop_body wide 4095 0)
           (exec (gpio_callback BUTTON_A_PIN 4 300000) initial)) = [0] /\
  pwm_levels LED_B_PIN
    (trace (loop_body wide 4095 0)
           (exec (gpio_callback BUTTON_A_PIN 4 600000)
                 (exec (gpio_callback BUTTON_A_PIN 4 300000) initial)))
    = [65504].
Proof.
  split; [reflexivity|]. split; [reflexivity|]. split; [reflexivity|].
  destruct (button_a_gates_the_next_iteration wide initial 4 300000 4 600000 4095 0)
    as [_ [Hb [_ [_ Ht]]]]; [reflexivity|reflexivity|reflexivity|].
  split; [exact Hb|]. rewrite Ht. reflexivity.
Defined.

(** ** Invariants of the running system, continued *)

(** X16.  In every state the running program reaches, in either variant,
    the last-accepted timestamp is a 32-bit value and the marker position
    held in the globals keeps the 8x8 marker on the display. *)
Theorem reachable_state_is_well_formed (lim : limits) (g : globals) :
  In lim [wide; narrow] -> reachable lim g ->
  0 <= last_interrupt_time g < 2 ^ 32 /\
  0 <= square_x g /\ square_x g + 8 <= WIDTH /\
  0 <= square_y g /\ square_y g + 8 <= HEIGHT.
Proof.
  intros Hlim Hr. induction Hr as [|g i Hr IH Hv].
  - cbn. unfold WIDTH, HEIGHT. lia.
  - destruct i as [gpio events now|vrx vry]; cbn [step valid_input] in *.
    + destruct (gpio_callback_keeps_marker gpio events now g) as [-> ->].
      split; [|tauto].
      destruct (Z_le_gt_dec (elapsed g now) 200000) as [Hd|Ha].
      * unfold exec. rewrite gpio_callback_discarded by exact Hd. tauto.
      * apply Z.gt_lt in Ha.
        destruct (Z.eq_dec gpio SW_PIN) as [->|Hs];
          [unfold exec; rewrite gpio_callback_sw by exact Ha; cbn; tauto|].
        destruct (Z.eq_dec gpio BUTTON_A_PIN) as [->|Hb];
          [unfold exec; rewrite gpio_callback_button_a by exact Ha; cbn; tauto|].
        unfold exec. rewrite gpio_callback_other_pin by assumption. cbn. tauto.
    + rewrite loop_body_exec.
      cbn [last_interrupt_time square_x square_y set_square_x set_square_y].
      split; [tauto|].
      unfold JOYSTICK_CENTER, ADC_MAX, WIDTH, HEIGHT in *.
      destruct Hlim as [<-|[<-|[]]]; cbn [limit_x limit_y wide narrow];
        repeat split; Z.to_euclidean_division_equations; lia.
Qed.

Lemma reachable_state_is_well_formed_witness :
  In wide [wide; narrow] /\
  reachable wide (exec (step wide (Tick 0 0)) initial) /\
  square_x (exec (step wide (Tick 0 0)) initial) + 8 <= WIDTH.
Proof.
  assert (Hr : reachable wide (exec (step wide (Tick 0 0)) initial)).
  { apply reachable_step; [apply reachable_initial|].
    cbn. unfold ADC_MAX. lia. }
  split; [left; reflexivity|]. split; [exact Hr|].
  destruct (reachable_state_is_well_formed wide _ (or_introl eq_refl) Hr)
    as [_ [_ [Hx _]]].
  exact Hx.
Defined.

(** X17.  The handler has no case for other pins, but it still records the
    timestamp: an edge on a pin that is neither the joystick button nor
    button A, once past the debounce test, changes no other variable and
    produces no output, and an edge on any pin that follows it by at most
    200000 microseconds is then discarded. *)
Theorem edge_on_another_pin_starts_a_window
  (lim : limits) (g : globals) (gpio events now gpio' events' now' : Z) :
  gpio <> SW_PIN -> gpio <> BUTTON_A_PIN ->
  200000 < elapsed g now ->
  0 <= now -> now <= now' -> now' <= now + 200000 -> now' < 2 ^ 32 ->
  run lim [Irq gpio events now; Irq gpio' events' now'] g
    = set_last_interrupt_time now g /\
  run_trace lim [Irq gpio events now; Irq gpio' events' now'] g = [].
Proof.
  intros Hs Hb Ha H0 H1 H2 H3.
  cbn [run run_trace step]. unfold exec, trace.
  rewrite !(gpio_callback_other_pin gpio events now g Ha Hs Hb). cbn [fst snd].
  rewrite gpio_callback_discarded.
  - split; reflexivity.
  - unfold elapsed. cbn [last_interrupt_time set_last_interrupt_time].
    rewrite u32_sub by lia.
    destruct (now <=? now') eqn:E; [lia|]. apply Z.leb_gt in E. lia.
Qed.

Lemma edge_on_another_pin_starts_a_window_witness :
  7 <> SW_PIN /\ 7 <> BUTTON_A_PIN /\ 200000 < elapsed initial 500000 /\
  run wide [Irq 7 4 500000; Irq SW_PIN 4 700000] initial
    = set_last_interrupt_time 500000 initial.
Proof.
  split; [discriminate|]. split; [discriminate|]. split; [reflexivity|].
  destruct (edge_on_another_pin_starts_a_window
              wide initial 7 4 500000 SW_PIN 4 700000) as [Hrun _];
    [discriminate|discriminate|reflexivity|lia|lia|lia|lia|].
  exact Hrun.
Defined.
